(** * buildscripts/monitor_build_status/cli.py

    A shallow embedding of the build-status monitor: the counting of open
    build-failure tickets against fixed thresholds, the fourteen-day
    Evergreen waterfall report with its per-project medians, and the
    RED / YELLOW / GREEN verdict computed by
    [MonitorBuildStatusOrchestrator.evaluate_build_redness].

    Python values are modelled as follows.
    - [int] is [Z]; a count obtained from a collection is a [nat].
    - [float] is the rational value of an IEEE-754 binary64 number: every
      float operation computes the exact rational result and rounds it to
      53 significant bits, ties to even ([Float.round53]).  The exponent range
      (overflow above 1.8e308, subnormals below 2.2e-308) is not modelled:
      the model computes the float of Python as long as the rounded result
      is zero or of normal magnitude ([Float.in_range]), as it is for the
      percentage of the length of any list that a machine holds; the
      properties of integers that are not such lengths bound them, and
      show that the results are in range.  [agrees_with_binary64] checks
      the model against the kernel's hardware floats.
    - exceptions are the [Raise] branch of [result].
    - a [dict] that is iterated is an association list in insertion order
      ([Dict]); a [dict] that is only indexed is a [gmap].
    - [datetime] is a number of microseconds since 1970-01-01T00:00:00 UTC.
    - the structured log is the list of the [LOGGER.info] calls, each with
      its message and keyword arguments ([LogEvent]); the calls of a method
      are collected by a function of their own, named after it
      ([_make_bfs_report_log] and the like), and [evaluate_build_redness]
      puts them in the order of the run. *)

From Stdlib Require Import ZArith QArith Qround Qabs Qpower Lia Lqa.
From Stdlib Require Import Floats.PrimFloat Floats.FloatOps Floats.SpecFloat Uint63.
From stdpp Require Import gmap strings list pretty sorting.

#[local] Open Scope Z_scope.

(** ** Python exceptions and the error monad *)

Inductive exn : Type :=
  | ZeroDivisionError
  | KeyError (key : string)
  | StatisticsError.

Inductive result (A : Type) : Type :=
  | Ok (a : A)
  | Raise (e : exn).
Arguments Ok {A} a.
Arguments Raise {A} e.

#[export] Instance result_ret : MRet result := λ A, @Ok A.
#[export] Instance result_bind : MBind result := λ A B k r,
  match r with
  | Ok a => k a
  | Raise e => Raise e
  end.
#[export] Instance result_fmap : FMap result := λ A B f r,
  match r with
  | Ok a => Ok (f a)
  | Raise e => Raise e
  end.

Definition is_ok {A} (r : result A) : bool :=
  match r with Ok _ => true | Raise _ => false end.

(** [for x in xs: acc = body(acc, x)], where the body may raise. *)
Fixpoint for_each {A S} (body : S → A → result S) (xs : list A) (acc : S)
  : result S :=
  match xs with
  | [] => Ok acc
  | x :: xs' => acc' ← body acc x; for_each body xs' acc'
  end.

(** ** Python floats *)

Module Float.

#[local] Open Scope Q_scope.

(** Nearest integer, ties to the even one. *)
Definition round_half_even (q : Q) : Z :=
  let f := Qfloor q in
  match Qcompare (q - inject_Z f) (1 # 2) with
  | Lt => f
  | Gt => (f + 1)%Z
  | Eq => if Z.even f then f else (f + 1)%Z
  end.

(** [ilog2 q] is the integer [k] with [2^k <= q < 2^(k+1)], for [0 < q]. *)
Definition ilog2 (q : Q) : Z :=
  let k := (Z.log2 (Qnum q) - Z.log2 (Z.pos (Qden q)))%Z in
  if Qle_bool (Qpower 2 k) q then k else (k - 1)%Z.

(** The significand of a positive [q] on 53 bits and its exponent. *)
Definition exponent (q : Q) : Z := (ilog2 q - 52)%Z.
Definition significand (q : Q) : Z :=
  round_half_even (q / Qpower 2 (exponent q)).

Definition round_pos (q : Q) : Q :=
  inject_Z (significand q) * Qpower 2 (exponent q).

(** Round to nearest binary64, ties to even. *)
Definition round53 (q : Q) : Q :=
  match Qnum q with
  | Z0 => 0
  | Zpos _ => Qred (round_pos q)
  | Zneg _ => Qred (- round_pos (- q))
  end.

(** The unit roundoff of binary64, 2^-53. *)
Definition unit_roundoff : Q := 1 # 9007199254740992.

(** The values on which rounding to 53 bits is rounding to binary64: zero
    and the magnitudes of the normal numbers.  A rounded result of 2^1024
    or more is an overflow ([int / int] and [float(int)] raise
    [OverflowError], a product is infinite), one below 2^-1022 is rounded
    on the coarser grid of the subnormal numbers. *)
Definition in_range (x : Q) : Prop :=
  x == 0 \/ (2 ^ (-1022) <= Qabs x /\ Qabs x < 2 ^ 1024).

(** [float(n)], for [n] of magnitude below 2^1024. *)
Definition of_int (n : Z) : Q := round53 (inject_Z n).

(** [a / b] on two ints: the correctly rounded quotient, when it is
    [in_range]. *)
Definition int_truediv (a b : Z) : result Q :=
  if (b =? 0)%Z then Raise ZeroDivisionError
  else Ok (round53 (inject_Z a / inject_Z b)).

(** [x * y] on two floats, when the product is [in_range]. *)
Definition mul (x y : Q) : Q := round53 (x * y).

Definition gtb (x y : Q) : bool := negb (Qle_bool x y).
Definition ltb (x y : Q) : bool := negb (Qle_bool y x).

(** [f"{x:.<digits>f}"]: the decimal expansion of [x] with [digits]
    fractional digits, correctly rounded, ties to even. *)
Definition pad_zeros (width : nat) (s : string) : string :=
  String.concat "" (replicate (width - String.length s)%nat "0"%string) +:+ s.

Definition format_f (digits : nat) (x : Q) : string :=
  let scaled := round_half_even (Qabs x * inject_Z (10 ^ Z.of_nat digits)) in
  let ds := pad_zeros (S digits) (pretty scaled) in
  let cut := (String.length ds - digits)%nat in
  let sign := if Qle_bool 0 x then ""%string else "-"%string in
  sign +:+ String.substring 0 cut ds
    +:+ (if digits is O then ""%string else "." +:+ String.substring cut digits ds).

(** The rational value of a hardware binary64 number. *)
Definition of_spec_float (s : spec_float) : option Q :=
  match s with
  | S754_zero _ => Some 0
  | S754_finite sign m e =>
      let v := inject_Z (Z.pos m) * Qpower 2 e in
      Some (Qred (if sign then - v else v))
  | S754_infinity _ | S754_nan => None
  end.

Definition binary64_value (x : float) : option Q := of_spec_float (Prim2SF x).

End Float.

(** ** Python strings, statistics, dicts and datetimes *)

Module Py.

Definition nl : string := String (Ascii.ascii_of_nat 10) EmptyString.
Definition dquote : string := String (Ascii.ascii_of_nat 34) EmptyString.

(** [sep.join(parts)] *)
Definition join (sep : string) (parts : list string) : string :=
  String.concat sep parts.

(** [s.split("\n")] *)
Fixpoint split_lines_go (cur : string) (s : string) : list string :=
  match s with
  | EmptyString => [cur]
  | String c s' =>
      if Ascii.eqb c (Ascii.ascii_of_nat 10) then cur :: split_lines_go EmptyString s'
      else split_lines_go (cur +:+ String c EmptyString) s'
  end.
Definition split_lines (s : string) : list string :=
  split_lines_go EmptyString s.

(** [s.strip()]: ASCII whitespace is removed at both ends. *)
Definition is_space (c : Ascii.ascii) : bool :=
  let n := Ascii.nat_of_ascii c in
  ((9 <=? n) && (n <=? 13) || (28 <=? n) && (n <=? 32))%nat.

Fixpoint lstrip (s : string) : string :=
  match s with
  | EmptyString => EmptyString
  | String c s' => if is_space c then lstrip s' else s
  end.

Fixpoint rstrip (s : string) : string :=
  match s with
  | EmptyString => EmptyString
  | String c s' =>
      match rstrip s' with
      | EmptyString => if is_space c then EmptyString else String c EmptyString
      | r => String c r
      end
  end.

Definition strip (s : string) : string := rstrip (lstrip s).

(** A number returned by [statistics.median]: an element of the data
    (an int) or the mean of the two middle elements (a float). *)
Inductive number : Type :=
  | Int (n : Z)
  | Flt (x : Q).

Definition to_float (v : number) : Q :=
  match v with
  | Int n => Float.of_int n
  | Flt x => x
  end.

(** [statistics.median(data)] *)
Definition median (data : list Z) : result number :=
  let data := merge_sort Z.le data in
  let n := length data in
  if (n =? 0)%nat then Raise StatisticsError
  else if (n mod 2 =? 1)%nat then Ok (Int (nth (n / 2) data 0))
  else
    let i := (n / 2)%nat in
    Flt <$> Float.int_truediv (nth (i - 1) data 0 + nth i data 0) 2.

End Py.

(** A dict in insertion order. *)
Module Dict.

Definition t (V : Type) : Type := list (string * V).

(** [d[k]] *)
Fixpoint get {V} (k : string) (d : t V) : result V :=
  match d with
  | [] => Raise (KeyError k)
  | (k', v) :: d' => if String.eqb k' k then Ok v else get k d'
  end.

(** [d[k] = v]: an existing key keeps its place. *)
Fixpoint set {V} (k : string) (v : V) (d : t V) : t V :=
  match d with
  | [] => [(k, v)]
  | (k', v') :: d' =>
      if String.eqb k' k then (k', v) :: d' else (k', v') :: set k v d'
  end.

(** [{k: v for k in ks}] *)
Definition from_keys {V} (ks : list string) (v : V) : t V :=
  fold_left (λ d k, set k v d) ks [].

(** [d[k].append(x)] *)
Definition append_at {V} (k : string) (x : V) (d : t (list V))
  : result (t (list V)) :=
  vs ← get k d; Ok (set k (vs ++ [x]) d).

Definition keys {V} (d : t V) : list string := d.*1.

End Dict.

(** Datetimes in UTC, in microseconds since the epoch. *)
Module Datetime.

Definition usec_per_day : Z := 86400 * 1000000.

(** [timedelta(days=n)] *)
Definition timedelta_days (n : Z) : Z := n * usec_per_day.

(** [t.replace(hour=0, minute=0, second=0, microsecond=0)] *)
Definition at_midnight (t : Z) : Z := t - t mod usec_per_day.

(** The proleptic Gregorian date of a day number (days since the epoch). *)
Definition civil_from_days (days : Z) : Z * Z * Z :=
  let z := days + 719468 in
  let era := z / 146097 in
  let doe := z - era * 146097 in
  let yoe := (doe - doe / 1460 + doe / 36524 - doe / 146096) / 365 in
  let doy := doe - (365 * yoe + yoe / 4 - yoe / 100) in
  let mp := (5 * doy + 2) / 153 in
  let d := doy - (153 * mp + 2) / 5 + 1 in
  let m := if mp <? 10 then mp + 3 else mp - 9 in
  let y := yoe + era * 400 + (if m <=? 2 then 1 else 0) in
  (y, m, d).

(** [t.strftime("%Y-%m-%d")] *)
Definition strftime_ymd (t : Z) : string :=
  let '(y, m, d) := civil_from_days (t / usec_per_day) in
  Float.pad_zeros 4 (pretty y) +:+ "-" +:+ Float.pad_zeros 2 (pretty m)
    +:+ "-" +:+ Float.pad_zeros 2 (pretty d).

(** [t.isoformat()], for a datetime whose [tzinfo] is UTC: the fraction of
    a second is written only when it is not zero. *)
Definition isoformat (t : Z) : string :=
  let '(y, m, d) := civil_from_days (t / usec_per_day) in
  let usec := t mod usec_per_day in
  let second := usec / 1000000 in
  let microsecond := usec mod 1000000 in
  Float.pad_zeros 4 (pretty y) +:+ "-" +:+ Float.pad_zeros 2 (pretty m)
    +:+ "-" +:+ Float.pad_zeros 2 (pretty d)
    +:+ "T" +:+ Float.pad_zeros 2 (pretty (second / 3600))
    +:+ ":" +:+ Float.pad_zeros 2 (pretty (second / 60 mod 60))
    +:+ ":" +:+ Float.pad_zeros 2 (pretty (second mod 60))
    +:+ (if microsecond =? 0 then ""%string
         else "." +:+ Float.pad_zeros 6 (pretty microsecond))
    +:+ "+00:00".

End Datetime.

(** An event of the structured log: the message of a [LOGGER.info] call and
    its keyword arguments, in the order of the call. *)
Inductive LogValue : Type :=
  | LogStr (s : string)
  | LogInt (n : Z)
  | LogStrs (l : list string)
  | LogInts (l : list Z).

Record LogEvent : Type := {
  event : string;
  kwargs : list (string * LogValue);
}.

(** [LOGGER.info(message)] *)
Definition info (message : string) : LogEvent :=
  {| event := message; kwargs := [] |}.

(** ** The collaborators of the script *)

(** buildscripts/monitor_build_status/jira_service.py *)
Inductive TestType : Type := CORRECTNESS | PERFORMANCE.
Inductive BfTemperature : Type := HOT | COLD | NONE.

#[export] Instance TestType_eq_dec : EqDecision TestType.
Proof. solve_decision. Defined.
#[export] Instance BfTemperature_eq_dec : EqDecision BfTemperature.
Proof. solve_decision. Defined.

(** Modelled from the spec: the ticket record of section 3, which
    jira_service.py declares; an absent team is [None]. *)
Record BfIssue : Type := {
  key : string;
  assigned_team : option string;
  test_type : TestType;
  temperature : BfTemperature;
  evergreen_projects : list string;
}.

Record JiraService : Type := {
  fetch_bfs : string → list BfIssue;
}.

(** Modelled from the spec: [TaskStatusCounts] of evergreen_service.py, a
    tally of task outcomes for one project; a tally built from a project
    name alone has every count zero, and [add] sums field by field and
    carries the project of its left operand through. *)
Record TaskStatusCounts : Type := {
  project : string;
  succeeded : Z;
  failed : Z;
  other : Z;
}.

Definition TaskStatusCounts_of_project (name : string) : TaskStatusCounts :=
  {| project := name; succeeded := 0; failed := 0; other := 0 |}.

Definition TaskStatusCounts_add (a b : TaskStatusCounts) : TaskStatusCounts :=
  {| project := project a;
     succeeded := succeeded a + succeeded b;
     failed := failed a + failed b;
     other := other a + other b |}.

(** Modelled from the spec: [EvgProjectsInfo] of evergreen_service.py, the
    projects that track each branch and the active project names that scope
    the ticket query. *)
Record EvgProjectsInfo : Type := {
  branch_to_projects_map : gmap string (list string);
  active_project_names : list string;
}.

Record EvergreenService : Type := {
  get_evg_project_info : string → string → EvgProjectsInfo;
  get_waterfall_status : list string → Z → Z → list TaskStatusCounts;
}.

(** Modelled from the spec: [BFsReport] of bfs_report.py (section 4.1).  A
    ticket is ingested when one of its projects is active, under its team or
    the sentinel team when it has none; [get_bf_count] counts the ingested
    tickets whose test type and temperature are among the given ones,
    optionally of one team. *)
Module BFsReport.

Record t : Type := {
  all_assigned_teams : gset string;
  bfs : list (string * TestType * BfTemperature);
}.

Definition empty : t := {| all_assigned_teams := ∅; bfs := [] |}.

Definition unassigned : string := "unassigned".

Definition add_bf_data (bf : BfIssue) (info : EvgProjectsInfo) (r : t) : t :=
  if existsb (λ p, bool_decide (p ∈ active_project_names info))
       (evergreen_projects bf)
  then
    let team := default unassigned (assigned_team bf) in
    {| all_assigned_teams := {[ team ]} ∪ all_assigned_teams r;
       bfs := bfs r ++ [(team, test_type bf, temperature bf)] |}
  else r.

Definition matches (test_types : list TestType)
    (bf_temperatures : list BfTemperature) (team : option string)
    (bf : string * TestType * BfTemperature) : bool :=
  let '(bf_team, bf_type, bf_temp) := bf in
  bool_decide (bf_type ∈ test_types)
  && bool_decide (bf_temp ∈ bf_temperatures)
  && match team with
     | None => true
     | Some name => String.eqb bf_team name
     end.

Definition get_bf_count (r : t) (test_types : list TestType)
    (bf_temperatures : list BfTemperature) (team : option string) : nat :=
  length (filter (λ bf, matches test_types bf_temperatures team bf = true)
            (bfs r)).

End BFsReport.

(** ** cli.py *)

Definition SLACK_CHANNEL : string := "#10gen-mongo-code-lockdown".
Definition EVERGREEN_LOOKBACK_DAYS : nat := 14.

Definition OVERALL_HOT_BF_COUNT_THRESHOLD : Z := 30.
Definition OVERALL_COLD_BF_COUNT_THRESHOLD : Z := 100.
Definition OVERALL_PERF_BF_COUNT_THRESHOLD : Z := 30.
Definition PER_TEAM_HOT_BF_COUNT_THRESHOLD : Z := 7.
Definition PER_TEAM_COLD_BF_COUNT_THRESHOLD : Z := 20.
Definition PER_TEAM_PERF_BF_COUNT_THRESHOLD : Z := 10.

Definition iterable_to_jql (entries : list string) : string :=
  Py.join ", " (map (λ entry, Py.dquote +:+ entry +:+ Py.dquote) entries).

(** The three sets are written as lists, in the order of the source text. *)
Definition JIRA_PROJECTS : list string := ["Build Failures"].
Definition END_STATUSES : list string :=
  ["Needs Triage"; "Open"; "In Progress"; "Waiting for Bug Fix"].
Definition PRIORITIES : list string :=
  ["Blocker - P1"; "Critical - P2"; "Major - P3"; "Minor - P4"].
Definition ACTIVE_BFS_QUERY : string :=
  "project in (" +:+ iterable_to_jql JIRA_PROJECTS +:+ ")"
  +:+ " AND status in (" +:+ iterable_to_jql END_STATUSES +:+ ")"
  +:+ " AND priority in (" +:+ iterable_to_jql PRIORITIES +:+ ")".

(** The three traffic lights of the closing [if]/[elif]/[else]. *)
Inductive Verdict : Type := RED | YELLOW | GREEN.

Definition verdict (threshold_percentages : list Q) : Verdict :=
  if existsb (λ percentage, Float.gtb percentage 100) threshold_percentages
  then RED
  else if forallb (λ percentage, Float.ltb percentage 50) threshold_percentages
  then GREEN
  else YELLOW.

Definition action_line (v : Verdict) : string :=
  match v with
  | RED =>
      "`[ACTION]` RED: At least one metric exceeds 100% of its threshold."
      +:+ " Lock the branch if it is not already." +:+ Py.nl
  | GREEN =>
      "`[ACTION]` GREEN: All metrics are within 50% of their thresholds."
      +:+ " The branch should be unlocked if it is not already." +:+ Py.nl
  | YELLOW =>
      "`[ACTION]` YELLOW: At least one metric exceeds 50% of its threshold,"
      +:+ " but none exceed 100%. No action is required." +:+ Py.nl
  end.

(** [percentage = bf_count / threshold * 100] *)
Definition percentage (bf_count threshold : Z) : result Q :=
  quotient ← Float.int_truediv bf_count threshold;
  Ok (Float.mul quotient (Float.of_int 100)).

(** The nested [_make_status_msg]; the list it appends to is threaded. *)
Definition _make_status_msg (percentages : list Q) (scope_ bf_type : string)
    (bf_count threshold : Z) : result (string * list Q) :=
  p ← percentage bf_count threshold;
  Ok (scope_ +:+ " " +:+ bf_type +:+ " BFs: " +:+ pretty bf_count
        +:+ " (" +:+ Float.format_f 2 p +:+ "% of threshold "
        +:+ pretty threshold +:+ ")",
      percentages ++ [p]).

(** The three categories that are counted. *)
Definition hot_bf_count (r : BFsReport.t) (team : option string) : nat :=
  BFsReport.get_bf_count r [CORRECTNESS] [HOT] team.
Definition cold_bf_count (r : BFsReport.t) (team : option string) : nat :=
  BFsReport.get_bf_count r [CORRECTNESS] [COLD; NONE] team.
Definition perf_bf_count (r : BFsReport.t) (team : option string) : nat :=
  BFsReport.get_bf_count r [PERFORMANCE] [HOT; COLD; NONE] team.

(** One turn of [for team in bfs_report.all_assigned_teams]; the state is
    the three running maxima. *)
Definition per_team_step (r : BFsReport.t) (maxima : nat * nat * nat)
    (team : string) : nat * nat * nat :=
  let '(max_per_team_hot_bf_count, max_per_team_cold_bf_count,
        max_per_team_perf_bf_count) := maxima in
  let per_team_hot_bf_count := hot_bf_count r (Some team) in
  let max_per_team_hot_bf_count :=
    if (max_per_team_hot_bf_count <? per_team_hot_bf_count)%nat
    then per_team_hot_bf_count else max_per_team_hot_bf_count in
  let per_team_cold_bf_count := cold_bf_count r (Some team) in
  let max_per_team_cold_bf_count :=
    if (max_per_team_cold_bf_count <? per_team_cold_bf_count)%nat
    then per_team_cold_bf_count else max_per_team_cold_bf_count in
  let per_team_perf_bf_count := perf_bf_count r (Some team) in
  let max_per_team_perf_bf_count :=
    if (max_per_team_perf_bf_count <? per_team_perf_bf_count)%nat
    then per_team_perf_bf_count else max_per_team_perf_bf_count in
  (max_per_team_hot_bf_count, max_per_team_cold_bf_count,
   max_per_team_perf_bf_count).

(** The loop, over the teams in the order the set yields them. *)
Definition max_per_team_over (r : BFsReport.t) (teams : list string)
  : nat * nat * nat :=
  fold_left (per_team_step r) teams (0, 0, 0)%nat.

Definition max_per_team (r : BFsReport.t) : nat * nat * nat :=
  max_per_team_over r (elements (BFsReport.all_assigned_teams r)).

(** What [evaluate_build_redness] leaves when it returns: its locals
    [threshold_percentages] and [status_message], the lines that its closing
    loop logs ([logged_lines]), every event that the run has logged, from
    its first statement to its last ([log]), and the message it sends to
    [SLACK_CHANNEL] when [notify] is set. *)
Record Outcome : Type := {
  threshold_percentages : list Q;
  status_message : string;
  logged_lines : list string;
  log : list LogEvent;
  slack_message : option string;
}.

(** The window of [evaluate_build_redness] at the time [now]. *)
Definition window_end_at (now : Z) : Z :=
  Datetime.at_midnight now - Datetime.timedelta_days 1.
Definition window_start_at (now : Z) : Z :=
  window_end_at now - Datetime.timedelta_days (Z.of_nat EVERGREEN_LOOKBACK_DAYS).

(** The bounds of the sub-window of [day] in [_make_waterfall_report]. *)
Definition day_window (window_end : Z) (day : nat) : Z * Z :=
  let day_window_end := window_end - Datetime.timedelta_days (Z.of_nat day) in
  let day_window_start := day_window_end - Datetime.timedelta_days 1 in
  (day_window_start, day_window_end).

(** The inner loop of [_accumulate_project_statuses]: the tally of one
    project over the builds of a day. *)
Definition project_status_of (build_statuses : list TaskStatusCounts)
    (evg_project_name : string) : TaskStatusCounts :=
  fold_left
    (λ project_status build_status,
       if String.eqb (project build_status) evg_project_name
       then TaskStatusCounts_add project_status build_status
       else project_status)
    build_statuses (TaskStatusCounts_of_project evg_project_name).

Definition _accumulate_project_statuses (evg_project_names : list string)
    (build_statuses : list TaskStatusCounts) : list TaskStatusCounts :=
  map (project_status_of build_statuses) evg_project_names.

Definition _get_waterfall_redness_status
    (waterfall_report : Dict.t (list TaskStatusCounts))
    (window_start window_end : Z) : result string :=
  let status_message :=
    "`[STATUS]` Evergreen waterfall red and purple boxes median count per day"
    +:+ " between " +:+ Datetime.strftime_ymd window_start
    +:+ " and " +:+ Datetime.strftime_ymd window_end in
  for_each
    (λ status_message '(evg_project_name, daily_task_status_counts),
       let daily_per_project_red_box_counts :=
         map failed daily_task_status_counts in
       median_per_day_red_box_count ←
         Py.median daily_per_project_red_box_counts;
       Ok (status_message +:+ Py.nl +:+ evg_project_name +:+ ": "
             +:+ Float.format_f 0 (Py.to_float median_per_day_red_box_count)))
    waterfall_report status_message.

(** The events that [_get_waterfall_redness_status] logs when it returns:
    one per project of the report, before the median of the project is
    taken. *)
Definition _get_waterfall_redness_status_log
    (waterfall_report : Dict.t (list TaskStatusCounts)) : list LogEvent :=
  map (λ '(evg_project_name, daily_task_status_counts),
         let daily_per_project_red_box_counts :=
           map failed daily_task_status_counts in
         {| event := "Daily per project red box counts";
            kwargs := [("project", LogStr evg_project_name);
                       ("daily_red_box_counts",
                        LogInts daily_per_project_red_box_counts)] |})
    waterfall_report.

(** The events that [_make_waterfall_report] logs: one per day, before the
    query of the day. *)
Definition _make_waterfall_report_log (evg_project_names : list string)
    (window_end : Z) : list LogEvent :=
  map (λ day,
         let '(day_window_start, day_window_end) := day_window window_end day in
         {| event := "Getting Evergreen waterfall data";
            kwargs := [("projects", LogStrs evg_project_names);
                       ("window_start",
                        LogStr (Datetime.isoformat day_window_start));
                       ("window_end",
                        LogStr (Datetime.isoformat day_window_end))] |})
    (seq 0 EVERGREEN_LOOKBACK_DAYS).

Section Orchestrator.

(** [self.jira_service], [self.evg_service] and the clock. *)
Variable jira_service : JiraService.
Variable evg_service : EvergreenService.
Variable utcnow : Z.

(** Declared outside cli.py: the table rendering of a report and the
    name of the Jira custom field. *)
Variable as_str_table : BFsReport.t → string.
Variable EVERGREEN_PROJECT : string.

Definition _make_bfs_report (evg_projects_info : EvgProjectsInfo)
  : BFsReport.t :=
  let query :=
    ACTIVE_BFS_QUERY +:+ " AND " +:+ Py.dquote +:+ EVERGREEN_PROJECT
    +:+ Py.dquote +:+ " in" +:+ " ("
    +:+ iterable_to_jql (active_project_names evg_projects_info) +:+ ")" in
  let active_bfs := fetch_bfs jira_service query in
  fold_left (λ bfs_report bf, BFsReport.add_bf_data bf evg_projects_info bfs_report)
    active_bfs BFsReport.empty.

(** The two events that [_make_bfs_report] logs, before and after the
    query. *)
Definition _make_bfs_report_log (evg_projects_info : EvgProjectsInfo)
  : list LogEvent :=
  let query :=
    ACTIVE_BFS_QUERY +:+ " AND " +:+ Py.dquote +:+ EVERGREEN_PROJECT
    +:+ Py.dquote +:+ " in" +:+ " ("
    +:+ iterable_to_jql (active_project_names evg_projects_info) +:+ ")" in
  let active_bfs := fetch_bfs jira_service query in
  [ {| event := "Getting active BFs from Jira";
       kwargs := [("query", LogStr query)] |};
    {| event := "Got active BFs";
       kwargs := [("count", LogInt (Z.of_nat (length active_bfs)))] |} ].

Definition _get_bf_counts_status (bfs_report : BFsReport.t)
  : result (string * list Q) :=
  let percentages := [] in
  let status_message := "`[STATUS]` The current BF count"%string in
  let status_message :=
    status_message +:+ Py.nl +:+ "```" +:+ Py.nl
    +:+ as_str_table bfs_report +:+ Py.nl +:+ "```" in
  let overall_hot_bf_count := hot_bf_count bfs_report None in
  let overall_cold_bf_count := cold_bf_count bfs_report None in
  let overall_perf_bf_count := perf_bf_count bfs_report None in
  let scope := "Overall"%string in
  '(hot, percentages) ←
    _make_status_msg percentages scope "Hot"
      (Z.of_nat overall_hot_bf_count) OVERALL_HOT_BF_COUNT_THRESHOLD;
  '(cold, percentages) ←
    _make_status_msg percentages scope "Cold"
      (Z.of_nat overall_cold_bf_count) OVERALL_COLD_BF_COUNT_THRESHOLD;
  '(perf, percentages) ←
    _make_status_msg percentages scope "Perf"
      (Z.of_nat overall_perf_bf_count) OVERALL_PERF_BF_COUNT_THRESHOLD;
  let status_message :=
    status_message +:+ Py.nl +:+ hot +:+ Py.nl +:+ cold +:+ Py.nl +:+ perf in
  let '(max_per_team_hot_bf_count, max_per_team_cold_bf_count,
        max_per_team_perf_bf_count) := max_per_team bfs_report in
  let scope := "Max per Assigned Team"%string in
  '(hot, percentages) ←
    _make_status_msg percentages scope "Hot"
      (Z.of_nat max_per_team_hot_bf_count) PER_TEAM_HOT_BF_COUNT_THRESHOLD;
  '(cold, percentages) ←
    _make_status_msg percentages scope "Cold"
      (Z.of_nat max_per_team_cold_bf_count) PER_TEAM_COLD_BF_COUNT_THRESHOLD;
  '(perf, percentages) ←
    _make_status_msg percentages scope "Perf"
      (Z.of_nat max_per_team_perf_bf_count) PER_TEAM_PERF_BF_COUNT_THRESHOLD;
  let status_message :=
    status_message +:+ Py.nl +:+ hot +:+ Py.nl +:+ cold +:+ Py.nl +:+ perf in
  Ok (status_message, percentages).

(** The tallies of one turn of [for day in range(EVERGREEN_LOOKBACK_DAYS)]. *)
Definition day_statuses (evg_project_names : list string) (window_end : Z)
    (day : nat) : list TaskStatusCounts :=
  let '(day_window_start, day_window_end) := day_window window_end day in
  let waterfall_status :=
    get_waterfall_status evg_service evg_project_names
      day_window_start day_window_end in
  _accumulate_project_statuses evg_project_names waterfall_status.

Definition _make_waterfall_report (evg_project_names : list string)
    (window_end : Z) : result (Dict.t (list TaskStatusCounts)) :=
  let task_status_counts :=
    flat_map (day_statuses evg_project_names window_end)
      (seq 0 EVERGREEN_LOOKBACK_DAYS) in
  let waterfall_report := Dict.from_keys evg_project_names [] in
  for_each
    (λ waterfall_report task_status_count,
       Dict.append_at (project task_status_count) task_status_count
         waterfall_report)
    task_status_counts waterfall_report.

Definition evaluate_build_redness (repo branch : string) (notify : bool)
  : result Outcome :=
  let status_message :=
    Py.nl +:+ "`[STATUS]` '" +:+ repo +:+ "' repo '" +:+ branch
    +:+ "' branch" in
  let threshold_percentages := [] in
  let evg_projects_info := get_evg_project_info evg_service repo branch in
  evg_project_names ←
    match branch_to_projects_map evg_projects_info !! branch with
    | Some names => Ok names
    | None => Raise (KeyError branch)
    end;
  let bfs_report := _make_bfs_report evg_projects_info in
  '(bf_count_status_msg, bf_count_percentages) ←
    _get_bf_counts_status bfs_report;
  let status_message :=
    status_message +:+ Py.nl +:+ bf_count_status_msg +:+ Py.nl in
  let threshold_percentages :=
    threshold_percentages ++ bf_count_percentages in
  let window_end := window_end_at utcnow in
  let window_start := window_start_at utcnow in
  waterfall_report ← _make_waterfall_report evg_project_names window_end;
  waterfall_failure_rate_status_msg ←
    _get_waterfall_redness_status waterfall_report window_start window_end;
  let status_message :=
    status_message +:+ Py.nl +:+ waterfall_failure_rate_status_msg
    +:+ Py.nl in
  let status_message :=
    status_message +:+ Py.nl
    +:+ action_line (verdict threshold_percentages) in
  let logged_lines := Py.split_lines status_message in
  let log :=
    [info "Getting Evergreen projects data";
     info "Got Evergreen projects data"]
    ++ _make_bfs_report_log evg_projects_info
    ++ _make_waterfall_report_log evg_project_names window_end
    ++ _get_waterfall_redness_status_log waterfall_report
    ++ map info logged_lines
    ++ (if notify
        then [ {| event := "Notifying slack channel with results";
                  kwargs := [("slack_channel", LogStr SLACK_CHANNEL)] |} ]
        else []) in
  Ok {| threshold_percentages := threshold_percentages;
        status_message := status_message;
        logged_lines := logged_lines;
        log := log;
        slack_message :=
          if notify then Some (Py.strip status_message) else None |}.

End Orchestrator.

(** The six counts that [_get_bf_counts_status] measures, in the order of
    its six calls of [_make_status_msg]. *)
Definition bf_counts (bfs_report : BFsReport.t) : list Z :=
  let '(max_hot, max_cold, max_perf) := max_per_team bfs_report in
  [Z.of_nat (hot_bf_count bfs_report None);
   Z.of_nat (cold_bf_count bfs_report None);
   Z.of_nat (perf_bf_count bfs_report None);
   Z.of_nat max_hot; Z.of_nat max_cold; Z.of_nat max_perf].

(** The thresholds of the six calls, in the same order. *)
Definition bf_thresholds : list Z :=
  [OVERALL_HOT_BF_COUNT_THRESHOLD; OVERALL_COLD_BF_COUNT_THRESHOLD;
   OVERALL_PERF_BF_COUNT_THRESHOLD; PER_TEAM_HOT_BF_COUNT_THRESHOLD;
   PER_TEAM_COLD_BF_COUNT_THRESHOLD; PER_TEAM_PERF_BF_COUNT_THRESHOLD].

(** One running maximum of the loop: [if count > maximum: maximum = count]. *)
Definition running_max (count : string → nat) (teams : list string)
    (start : nat) : nat :=
  fold_left (λ maximum team,
               if (maximum <? count team)%nat then count team else maximum)
    teams start.

(** [m] is the greatest of the counts of the teams, and 0 without teams. *)
Definition maximum_over (count : string → nat) (teams : gset string)
    (m : nat) : Prop :=
  (∀ team, team ∈ teams → (count team ≤ m)%nat)
  ∧ (teams = ∅ → m = 0%nat)
  ∧ (teams ≠ ∅ → ∃ team, team ∈ teams ∧ count team = m).

(** The tickets of a report that are filed under [team] and whose test type
    and temperature are among the given ones. *)
Definition tickets_of_team (r : BFsReport.t) (test_types : list TestType)
    (bf_temperatures : list BfTemperature) (team : string)
  : list (string * TestType * BfTemperature) :=
  filter (λ bf, bf.1.1 = team ∧ bf.1.2 ∈ test_types ∧ bf.2 ∈ bf_temperatures)
    (BFsReport.bfs r).

(** The builds that [_make_waterfall_report] is given for [day]. *)
Definition builds_of_day (evg_service : EvergreenService)
    (evg_project_names : list string) (window_end : Z) (day : nat)
  : list TaskStatusCounts :=
  get_waterfall_status evg_service evg_project_names
    (day_window window_end day).1 (day_window window_end day).2.

(** The sum, field by field, of the builds of one project. *)
Definition sum_of_project (build_statuses : list TaskStatusCounts)
    (name : string) : TaskStatusCounts :=
  fold_left TaskStatusCounts_add
    (filter (λ build_status, project build_status = name) build_statuses)
    (TaskStatusCounts_of_project name).

(** The first line of the message of [_get_waterfall_redness_status] and
    the line that one turn of its loop adds for a project and its median. *)
Definition waterfall_header (window_start window_end : Z) : string :=
  "`[STATUS]` Evergreen waterfall red and purple boxes median count per day"
  +:+ " between " +:+ Datetime.strftime_ymd window_start
  +:+ " and " +:+ Datetime.strftime_ymd window_end.

Definition add_median_line (status_message : string)
    (project_median : string * Py.number) : string :=
  status_message +:+ Py.nl +:+ project_median.1 +:+ ": "
  +:+ Float.format_f 0 (Py.to_float project_median.2).

(** ** Sample collaborators, for concrete runs *)

Definition sample_info (names : list string) : EvgProjectsInfo :=
  {| branch_to_projects_map := {[ "master" := names ]};
     active_project_names := names |}.

(** An Evergreen service with the given projects on master, each of whose
    builds reports [red] failed tasks. *)
Definition sample_evg (names : list string) (red : Z) : EvergreenService :=
  {| get_evg_project_info := λ _ _, sample_info names;
     get_waterfall_status := λ projects _ _,
       map (λ name, {| project := name; succeeded := 100; failed := red;
                       other := 0 |}) projects |}.

(** A Jira service with [n] hot correctness tickets of one team. *)
Definition sample_jira (n : nat) : JiraService :=
  {| fetch_bfs := λ _,
       replicate n {| key := "BF-1"; assigned_team := Some "storage";
                      test_type := CORRECTNESS; temperature := HOT;
                      evergreen_projects := ["mongodb-mongo-master"] |} |}.

Definition sample_table (r : BFsReport.t) : string :=
  pretty (length (BFsReport.bfs r)) +:+ " BFs".

(** 2026-11-04T09:30:00 UTC *)
Definition sample_now : Z := (1793750400 + 34200) * 1000000.

(** The percentage as the hardware computes it, and the comparison of the
    model with it. *)
Definition hardware_percentage (bf_count threshold : Z) : float :=
  PrimFloat.mul
    (PrimFloat.div (of_uint63 (Uint63.of_Z bf_count))
       (of_uint63 (Uint63.of_Z threshold)))
    100.

Definition agrees_with_hardware (bf_count threshold : Z) : bool :=
  match percentage bf_count threshold,
        Float.binary64_value (hardware_percentage bf_count threshold) with
  | Ok p, Some h => Qeq_bool p h
  | _, _ => false
  end.

(** The event that a run logs before it notifies the Slack channel. *)
Definition slack_event : LogEvent :=
  {| event := "Notifying slack channel with results";
     kwargs := [("slack_channel", LogStr SLACK_CHANNEL)] |}.

(** The worse of two verdicts: RED before YELLOW before GREEN. *)
Definition worst (a b : Verdict) : Verdict :=
  match a, b with
  | RED, _ | _, RED => RED
  | YELLOW, _ | _, YELLOW => YELLOW
  | GREEN, GREEN => GREEN
  end.

(** The sum of a list of integers. *)
Definition sum_Z (l : list Z) : Z := foldr Z.add 0 l.

(** The failed counts of the builds that a query returns are, even all
    together, below 2^1000 in magnitude. *)
Definition failed_in_range (build_statuses : list TaskStatusCounts) : Prop :=
  sum_Z (map (λ build_status, Z.abs (failed build_status)) build_statuses)
  < 2 ^ 1000.

(** Whether a string contains the double quote character. *)
Fixpoint has_quote (s : string) : bool :=
  match s with
  | EmptyString => false
  | String c s' => Ascii.eqb c (Ascii.ascii_of_nat 34) || has_quote s'
  end.

(** * Properties *)

(** ** The verdict *)

Lemma Ok_inj {A} (a b : A) : Ok a = Ok b → a = b.
Proof. intros [= ->]. reflexivity. Qed.

Lemma gtb_iff (x y : Q) : Float.gtb x y = true ↔ (y < x)%Q.
Proof.
  unfold Float.gtb. rewrite negb_true_iff, <- not_true_iff_false, Qle_bool_iff.
  split; [apply Qnot_le_lt | apply Qlt_not_le].
Qed.

Lemma ltb_iff (x y : Q) : Float.ltb x y = true ↔ (x < y)%Q.
Proof.
  unfold Float.ltb. rewrite negb_true_iff, <- not_true_iff_false, Qle_bool_iff.
  split; [apply Qnot_le_lt | apply Qlt_not_le].
Qed.

Lemma existsb_Exists {A} (f : A → bool) (P : A → Prop) (l : list A) :
  (∀ x, f x = true ↔ P x) → existsb f l = true ↔ Exists P l.
Proof.
  intros Hf. induction l as [|x l IH]; simpl.
  - split; [discriminate | inversion 1].
  - rewrite orb_true_iff, Exists_cons, Hf, IH. reflexivity.
Qed.

Lemma forallb_Forall {A} (f : A → bool) (P : A → Prop) (l : list A) :
  (∀ x, f x = true ↔ P x) → forallb f l = true ↔ Forall P l.
Proof.
  intros Hf. induction l as [|x l IH]; simpl.
  - split; [constructor | reflexivity].
  - rewrite andb_true_iff, Forall_cons, Hf, IH. reflexivity.
Qed.

(** C1. The verdict is RED exactly when some percentage is strictly above
    100; otherwise GREEN exactly when every percentage is strictly below 50;
    otherwise YELLOW.  RED is decided first. *)
Theorem verdict_cases (threshold_percentages : list Q) :
  let any_above_100 := Exists (λ p, 100 < p)%Q threshold_percentages in
  let all_below_50 := Forall (λ p, p < 50)%Q threshold_percentages in
  (verdict threshold_percentages = RED ↔ any_above_100)
  ∧ (verdict threshold_percentages = GREEN ↔ ¬ any_above_100 ∧ all_below_50)
  ∧ (verdict threshold_percentages = YELLOW
     ↔ ¬ any_above_100 ∧ ¬ all_below_50).
Proof.
  intros any_above_100 all_below_50. unfold verdict.
  pose proof (existsb_Exists (λ p, Float.gtb p 100) (λ p, 100 < p)%Q
                threshold_percentages (λ p, gtb_iff p 100)) as Hany.
  pose proof (forallb_Forall (λ p, Float.ltb p 50) (λ p, p < 50)%Q
                threshold_percentages (λ p, ltb_iff p 50)) as Hall.
  fold any_above_100 in Hany. fold all_below_50 in Hall.
  destruct (existsb _ threshold_percentages).
  - assert any_above_100 by (apply Hany; reflexivity).
    repeat split; try discriminate; tauto.
  - assert (¬ any_above_100) by (rewrite <- Hany; discriminate).
    destruct (forallb _ threshold_percentages).
    + assert all_below_50 by (apply Hall; reflexivity).
      repeat split; try discriminate; tauto.
    + assert (¬ all_below_50) by (rewrite <- Hall; discriminate).
      repeat split; try discriminate; tauto.
Qed.

(** The verdicts of section 8 of the specification. *)
Example verdict_examples :
  verdict [101; 10; 10]%Q = RED
  ∧ verdict [10; 10; 10]%Q = GREEN
  ∧ verdict [60; 10; 10]%Q = YELLOW
  ∧ verdict [100; 10; 10]%Q = YELLOW
  ∧ verdict [0; 0; 0]%Q = GREEN
  ∧ verdict [101; 0; 0]%Q = RED
  ∧ verdict [50; 0]%Q = YELLOW.
Proof. repeat split. Qed.

(** ** The threshold table *)

Lemma percentage_nonzero (bf_count threshold : Z) :
  threshold ≠ 0 →
  percentage bf_count threshold =
    Ok (Float.mul (Float.round53 (inject_Z bf_count / inject_Z threshold))
          (Float.of_int 100)).
Proof.
  intros Hne. unfold percentage, Float.int_truediv.
  destruct (Z.eqb_spec threshold 0) as [->|_]; [contradiction | reflexivity].
Qed.

Lemma percentage_zero_threshold (bf_count : Z) :
  percentage bf_count 0 = Raise ZeroDivisionError.
Proof. reflexivity. Qed.

Lemma _make_status_msg_nonzero (percentages : list Q) (scope_ bf_type : string)
    (bf_count threshold : Z) :
  threshold ≠ 0 →
  ∃ msg p, percentage bf_count threshold = Ok p
    ∧ _make_status_msg percentages scope_ bf_type bf_count threshold
      = Ok (msg, percentages ++ [p]).
Proof.
  intros Hne. unfold _make_status_msg.
  rewrite (percentage_nonzero bf_count threshold Hne). simpl.
  eexists _, _. split; reflexivity.
Qed.

Lemma _get_bf_counts_status_percentages
    (as_str_table : BFsReport.t → string) (bfs_report : BFsReport.t) :
  ∃ msg percentages,
    _get_bf_counts_status as_str_table bfs_report = Ok (msg, percentages)
    ∧ Forall2 (λ ct p, percentage ct.1 ct.2 = Ok p)
        (zip (bf_counts bfs_report) bf_thresholds) percentages.
Proof.
  unfold _get_bf_counts_status, bf_counts, bf_thresholds.
  destruct (max_per_team bfs_report) as [[max_hot max_cold] max_perf].
  repeat match goal with
  | |- context [_make_status_msg ?ps ?s ?t ?c ?th] =>
      let Hp := fresh "Hp" in let Hm := fresh "Hm" in
      destruct (_make_status_msg_nonzero ps s t c th) as (? & ? & Hp & Hm);
      [ discriminate | rewrite Hm; clear Hm; cbn [mbind result_bind app] ]
  end.
  eexists _, _. split; [reflexivity|].
  cbn [zip zip_with]. repeat constructor; assumption.
Qed.

(** C4. The six percentage computations use the thresholds 30, 100, 30
    (overall hot, cold and unclassified, performance) and 7, 20, 10 (per
    team); each is positive, so [_get_bf_counts_status] never raises
    [ZeroDivisionError]: on every report it returns its six percentages. *)
Theorem thresholds_positive_no_division_by_zero
    (as_str_table : BFsReport.t → string) (bfs_report : BFsReport.t) :
  bf_thresholds = [30; 100; 30; 7; 20; 10]
  ∧ Forall (λ threshold, 0 < threshold) bf_thresholds
  ∧ ∃ msg p1 p2 p3 p4 p5 p6,
      _get_bf_counts_status as_str_table bfs_report
        = Ok (msg, [p1; p2; p3; p4; p5; p6])
      ∧ percentage (Z.of_nat (hot_bf_count bfs_report None)) 30 = Ok p1
      ∧ percentage (Z.of_nat (cold_bf_count bfs_report None)) 100 = Ok p2
      ∧ percentage (Z.of_nat (perf_bf_count bfs_report None)) 30 = Ok p3
      ∧ percentage (Z.of_nat (max_per_team bfs_report).1.1) 7 = Ok p4
      ∧ percentage (Z.of_nat (max_per_team bfs_report).1.2) 20 = Ok p5
      ∧ percentage (Z.of_nat (max_per_team bfs_report).2) 10 = Ok p6.
Proof.
  split; [reflexivity|]. split; [repeat constructor|].
  destruct (_get_bf_counts_status_percentages as_str_table bfs_report)
    as (msg & ps & Hrun & Hps).
  unfold bf_counts, bf_thresholds in Hps.
  destruct (max_per_team bfs_report) as [[max_hot max_cold] max_perf].
  cbn [zip zip_with] in Hps.
  repeat match goal with
  | H : Forall2 _ (_ :: _) _ |- _ =>
      apply Forall2_cons_inv_l in H; destruct H as (? & ? & ? & H & ->)
  | H : Forall2 _ [] _ |- _ => apply Forall2_nil_inv_l in H; subst
  end.
  eexists _, _, _, _, _, _, _. split; [exact Hrun|]. cbn [fst snd] in *.
  repeat split; assumption.
Qed.

(** ** The maxima per assigned team *)

Lemma per_team_fold (r : BFsReport.t) (teams : list string) (a b c : nat) :
  fold_left (per_team_step r) teams (a, b, c)
  = (running_max (λ team, hot_bf_count r (Some team)) teams a,
     running_max (λ team, cold_bf_count r (Some team)) teams b,
     running_max (λ team, perf_bf_count r (Some team)) teams c).
Proof.
  revert a b c. induction teams as [|team teams IH]; intros a b c.
  - reflexivity.
  - cbn [fold_left running_max]. unfold per_team_step at 2. rewrite IH.
    reflexivity.
Qed.

Lemma running_max_ge_start (count : string → nat) (teams : list string)
    (start : nat) :
  (start ≤ running_max count teams start)%nat.
Proof.
  revert start. induction teams as [|team teams IH]; intros start.
  - reflexivity.
  - cbn [running_max fold_left]. fold (running_max count teams).
    destruct (Nat.ltb_spec start (count team)).
    + etransitivity; [|apply IH]. lia.
    + apply IH.
Qed.

Lemma running_max_upper (count : string → nat) (teams : list string)
    (start : nat) (team : string) :
  team ∈ teams → (count team ≤ running_max count teams start)%nat.
Proof.
  revert start. induction teams as [|t teams IH]; intros start Hin.
  - inversion Hin.
  - cbn [running_max fold_left]. fold (running_max count teams).
    apply elem_of_cons in Hin as [->|Hin]; [|apply IH, Hin].
    destruct (Nat.ltb_spec start (count t)).
    + apply running_max_ge_start.
    + etransitivity; [|apply running_max_ge_start]. lia.
Qed.

Lemma running_max_attained (count : string → nat) (teams : list string)
    (start : nat) :
  running_max count teams start = start
  ∨ ∃ team, team ∈ teams ∧ count team = running_max count teams start.
Proof.
  revert start. induction teams as [|t teams IH]; intros start.
  - left. reflexivity.
  - cbn [running_max fold_left]. fold (running_max count teams).
    destruct (Nat.ltb_spec start (count t)) as [Hlt|Hge].
    + destruct (IH (count t)) as [Heq|(team & Hin & Heq)].
      * right. exists t. split; [left | symmetry; exact Heq].
      * right. exists team. split; [right; exact Hin | exact Heq].
    + destruct (IH start) as [Heq|(team & Hin & Heq)].
      * left. exact Heq.
      * right. exists team. split; [right; exact Hin | exact Heq].
Qed.

(** The result does not depend on the order in which the set is iterated. *)
Lemma running_max_maximum (count : string → nat) (teams : gset string)
    (order : list string) :
  order ≡ₚ elements teams →
  maximum_over count teams (running_max count order 0).
Proof.
  intros Hperm.
  assert (Hin : ∀ team, team ∈ order ↔ team ∈ teams).
  { intros team. rewrite Hperm. apply elem_of_elements. }
  split; [|split].
  - intros team Hteam. apply running_max_upper, Hin, Hteam.
  - intros ->. rewrite elements_empty in Hperm.
    apply Permutation_nil_r in Hperm. subst order. reflexivity.
  - intros Hne. destruct (running_max_attained count order 0)
      as [Hzero|(team & Hteam & Heq)].
    + apply set_choose_L in Hne as [team Hteam]. exists team.
      split; [exact Hteam|].
      pose proof (running_max_upper count order 0 team
                    (proj2 (Hin team) Hteam)). lia.
    + exists team. split; [apply Hin, Hteam | exact Heq].
Qed.

(** A report built by [_make_bfs_report] lists exactly the teams of its
    tickets. *)
Lemma add_bf_data_teams (bf : BfIssue) (info : EvgProjectsInfo)
    (r : BFsReport.t) :
  BFsReport.all_assigned_teams r = list_to_set (BFsReport.bfs r).*1.*1 →
  BFsReport.all_assigned_teams (BFsReport.add_bf_data bf info r)
  = list_to_set (BFsReport.bfs (BFsReport.add_bf_data bf info r)).*1.*1.
Proof.
  intros Hr. unfold BFsReport.add_bf_data.
  destruct (existsb _ _); [|exact Hr]. cbn.
  rewrite !fmap_app, list_to_set_app_L, Hr. cbn.
  rewrite (right_id_L ∅ (∪)). apply (comm_L (∪)).
Qed.

Lemma _make_bfs_report_teams (jira_service : JiraService)
    (EVERGREEN_PROJECT : string) (info : EvgProjectsInfo) :
  let r := _make_bfs_report jira_service EVERGREEN_PROJECT info in
  BFsReport.all_assigned_teams r = list_to_set (BFsReport.bfs r).*1.*1.
Proof.
  unfold _make_bfs_report.
  generalize (fetch_bfs jira_service
    (ACTIVE_BFS_QUERY +:+ " AND " +:+ Py.dquote +:+ EVERGREEN_PROJECT
       +:+ Py.dquote +:+ " in" +:+ " ("
       +:+ iterable_to_jql (active_project_names info) +:+ ")")).
  intros active_bfs. cbv zeta.
  assert (Hempty : BFsReport.all_assigned_teams BFsReport.empty
                   = list_to_set (BFsReport.bfs BFsReport.empty).*1.*1)
    by reflexivity.
  revert Hempty. generalize BFsReport.empty.
  induction active_bfs as [|bf active_bfs IH]; intros r Hr.
  - exact Hr.
  - cbn [fold_left]. apply IH, add_bf_data_teams, Hr.
Qed.

(** The count of [get_bf_count] for a team is the number of the tickets of
    that team with a listed test type and a listed temperature. *)
Lemma get_bf_count_team (r : BFsReport.t) (test_types : list TestType)
    (bf_temperatures : list BfTemperature) (team : string) :
  BFsReport.get_bf_count r test_types bf_temperatures (Some team)
  = length (tickets_of_team r test_types bf_temperatures team).
Proof.
  unfold BFsReport.get_bf_count, tickets_of_team. f_equal.
  apply list_filter_iff. intros [[bf_team bf_type] bf_temp].
  unfold BFsReport.matches. cbn [fst snd].
  rewrite !andb_true_iff, !bool_decide_eq_true.
  destruct (String.eqb_spec bf_team team); split; intros H;
    repeat split; try tauto; try congruence.
  destruct H as [[_ _] H]. discriminate H.
Qed.

(** C5. For each of the three categories the per-team figure is the maximum,
    over the teams of the report, of the count that [get_bf_count] gives
    for the category and the team, which is the number of the tickets of
    that team in the category: every team's count is at most the figure and
    some team attains it (it is not their sum); it is 0 when the report has
    no team, which is the case of a report built from no ticket. *)
Theorem max_per_team_is_maximum (bfs_report : BFsReport.t) :
  let teams := BFsReport.all_assigned_teams bfs_report in
  let count test_types bf_temperatures (team : string) :=
    BFsReport.get_bf_count bfs_report test_types bf_temperatures (Some team) in
  maximum_over (count [CORRECTNESS] [HOT]) teams
    (max_per_team bfs_report).1.1
  ∧ maximum_over (count [CORRECTNESS] [COLD; NONE]) teams
      (max_per_team bfs_report).1.2
  ∧ maximum_over (count [PERFORMANCE] [HOT; COLD; NONE]) teams
      (max_per_team bfs_report).2
  ∧ (∀ test_types bf_temperatures team,
       count test_types bf_temperatures team
       = length (tickets_of_team bfs_report test_types bf_temperatures team))
  ∧ (teams = ∅ → max_per_team bfs_report = (0, 0, 0)%nat)
  ∧ (∀ jira_service EVERGREEN_PROJECT info,
       bfs_report = _make_bfs_report jira_service EVERGREEN_PROJECT info →
       BFsReport.bfs bfs_report = [] → teams = ∅).
Proof.
  intros teams count. unfold max_per_team, max_per_team_over.
  rewrite per_team_fold. cbn [fst snd].
  split; [|split; [|split; [|split; [|split]]]].
  - apply (running_max_maximum _ teams (elements teams)). reflexivity.
  - apply (running_max_maximum _ teams (elements teams)). reflexivity.
  - apply (running_max_maximum _ teams (elements teams)). reflexivity.
  - intros test_types bf_temperatures team. apply get_bf_count_team.
  - intros Hempty. subst teams. rewrite Hempty, elements_empty. reflexivity.
  - intros jira_service EVERGREEN_PROJECT info -> Hbfs. subst teams.
    rewrite _make_bfs_report_teams, Hbfs. reflexivity.
Qed.

(** Two teams with two and three hot tickets: the figure is 3, not 5. *)
Example max_per_team_not_a_sum :
  let r := {| BFsReport.all_assigned_teams := {[ "a"; "b" ]};
              BFsReport.bfs :=
                [("a", CORRECTNESS, HOT); ("a", CORRECTNESS, HOT);
                 ("b", CORRECTNESS, HOT); ("b", CORRECTNESS, HOT);
                 ("b", CORRECTNESS, HOT)] |} in
  max_per_team r = (3, 0, 0)%nat ∧ hot_bf_count r None = 5%nat.
Proof. vm_compute. split; reflexivity. Qed.

(** ** The three categories *)

Lemma get_bf_count_snoc (r : BFsReport.t) (teams : gset string)
    (bf : string * TestType * BfTemperature) (test_types : list TestType)
    (bf_temperatures : list BfTemperature) (team : option string) :
  BFsReport.get_bf_count
    {| BFsReport.all_assigned_teams := teams;
       BFsReport.bfs := BFsReport.bfs r ++ [bf] |}
    test_types bf_temperatures team
  = (BFsReport.get_bf_count r test_types bf_temperatures team
     + if BFsReport.matches test_types bf_temperatures team bf then 1 else 0)%nat.
Proof.
  unfold BFsReport.get_bf_count. cbn [BFsReport.bfs].
  rewrite filter_app, length_app. f_equal.
  rewrite filter_cons, filter_nil.
  destruct (BFsReport.matches test_types bf_temperatures team bf);
    case_decide; try reflexivity; congruence.
Qed.

(** C6. A ticket of test type CORRECTNESS and temperature NONE satisfies the
    filter of the cold and unclassified count and neither the filter of the
    hot count nor that of the performance count; ingesting it adds one to the
    cold count and leaves the other two as they were.  No ticket at all
    satisfies two of the three filters. *)
Theorem unclassified_correctness_counted_as_cold_only
    (team : string) (r : BFsReport.t) (scope : option string) :
  let bf := (team, CORRECTNESS, NONE) in
  let r' := {| BFsReport.all_assigned_teams :=
                 {[ team ]} ∪ BFsReport.all_assigned_teams r;
               BFsReport.bfs := BFsReport.bfs r ++ [bf] |} in
  (BFsReport.matches [CORRECTNESS] [HOT] None bf = false
   ∧ BFsReport.matches [CORRECTNESS] [COLD; NONE] None bf = true
   ∧ BFsReport.matches [PERFORMANCE] [HOT; COLD; NONE] None bf = false)
  ∧ (hot_bf_count r' None = hot_bf_count r None
     ∧ cold_bf_count r' None = S (cold_bf_count r None)
     ∧ perf_bf_count r' None = perf_bf_count r None)
  ∧ (hot_bf_count r' (Some team) = hot_bf_count r (Some team)
     ∧ cold_bf_count r' (Some team) = S (cold_bf_count r (Some team))
     ∧ perf_bf_count r' (Some team) = perf_bf_count r (Some team))
  ∧ (∀ issue info,
       test_type issue = CORRECTNESS → temperature issue = NONE →
       default BFsReport.unassigned (assigned_team issue) = team →
       BFsReport.add_bf_data issue info r = r'
       ∨ BFsReport.add_bf_data issue info r = r)
  ∧ (∀ any,
       BFsReport.matches [CORRECTNESS] [HOT] scope any
         && BFsReport.matches [CORRECTNESS] [COLD; NONE] scope any = false
       ∧ BFsReport.matches [CORRECTNESS] [HOT] scope any
         && BFsReport.matches [PERFORMANCE] [HOT; COLD; NONE] scope any = false
       ∧ BFsReport.matches [CORRECTNESS] [COLD; NONE] scope any
         && BFsReport.matches [PERFORMANCE] [HOT; COLD; NONE] scope any = false).
Proof.
  intros bf r'.
  assert (Hhot : BFsReport.matches [CORRECTNESS] [HOT] None bf = false)
    by reflexivity.
  assert (Hcold : BFsReport.matches [CORRECTNESS] [COLD; NONE] None bf = true)
    by reflexivity.
  assert (Hperf :
    BFsReport.matches [PERFORMANCE] [HOT; COLD; NONE] None bf = false)
    by reflexivity.
  assert (Hown : ∀ test_types bf_temperatures,
    BFsReport.matches test_types bf_temperatures (Some team) bf
    = BFsReport.matches test_types bf_temperatures None bf).
  { intros. unfold BFsReport.matches, bf. rewrite String.eqb_refl.
    reflexivity. }
  split; [repeat split|]. split; [|split; [|split]].
  - unfold hot_bf_count, cold_bf_count, perf_bf_count, r'.
    rewrite !get_bf_count_snoc, Hhot, Hcold, Hperf. repeat split; lia.
  - unfold hot_bf_count, cold_bf_count, perf_bf_count, r'.
    rewrite !get_bf_count_snoc, !Hown, Hhot, Hcold, Hperf.
    repeat split; lia.
  - intros issue info Htype Htemp Hteam. unfold BFsReport.add_bf_data.
    destruct (existsb _ _); [left | right; reflexivity].
    cbv zeta. rewrite Htype, Htemp, Hteam. reflexivity.
  - intros [[any_team any_type] any_temp].
    destruct any_type, any_temp, scope as [name|]; cbn;
      repeat split; try reflexivity; destruct (String.eqb any_team name);
      reflexivity.
Qed.

(** ** The lookback window *)

Lemma usec_per_day_pos : 0 < Datetime.usec_per_day.
Proof. reflexivity. Qed.

Lemma day_window_bounds (window_end : Z) (day : nat) :
  day_window window_end day
  = (window_end - (Z.of_nat day + 1) * Datetime.usec_per_day,
     window_end - Z.of_nat day * Datetime.usec_per_day).
Proof.
  unfold day_window, Datetime.timedelta_days. f_equal. lia.
Qed.

Lemma day_window_covers (window_end t : Z) (days : nat) :
  window_end - Z.of_nat days * Datetime.usec_per_day ≤ t < window_end
  ↔ ∃ day, (day < days)%nat
      ∧ (day_window window_end day).1 ≤ t < (day_window window_end day).2.
Proof.
  pose proof usec_per_day_pos as Hpos.
  split.
  - intros [Hlo Hhi].
    set (k := (window_end - 1 - t) / Datetime.usec_per_day).
    pose proof (Z.div_mod (window_end - 1 - t) Datetime.usec_per_day
                  ltac:(lia)) as Hdiv.
    pose proof (Z.mod_pos_bound (window_end - 1 - t) Datetime.usec_per_day
                  Hpos) as Hmod.
    fold k in Hdiv.
    assert (0 ≤ k) by (apply Z.div_pos; lia).
    assert (k < Z.of_nat days) by nia.
    exists (Z.to_nat k). rewrite day_window_bounds. cbn [fst snd].
    rewrite Z2Nat.id by assumption. split; [lia|]. nia.
  - intros (day & Hday & Hin). rewrite day_window_bounds in Hin.
    cbn [fst snd] in Hin. nia.
Qed.

Lemma day_window_disjoint (window_end t : Z) (d d' : nat) :
  (day_window window_end d).1 ≤ t < (day_window window_end d).2 →
  (day_window window_end d').1 ≤ t < (day_window window_end d').2 →
  d = d'.
Proof.
  pose proof usec_per_day_pos as Hpos.
  rewrite !day_window_bounds. cbn [fst snd]. intros H1 H2.
  destruct (Nat.lt_trichotomy d d') as [Hlt|[Heq|Hgt]]; [|exact Heq|]; nia.
Qed.

(** ** The medians *)

Lemma median_empty : Py.median [] = Raise StatisticsError.
Proof. reflexivity. Qed.

Lemma median_raises_only_StatisticsError (data : list Z) :
  ∀ e, Py.median data = Raise e → e = StatisticsError.
Proof.
  intros e. unfold Py.median.
  destruct (_ =? 0)%nat; [congruence|].
  destruct (_ mod 2 =? 1)%nat; [discriminate|].
  unfold Float.int_truediv. cbn. discriminate.
Qed.

(** C8. When some project of the waterfall report has an empty sequence of
    daily tallies, the median of its failed counts raises
    [StatisticsError], and so does [_get_waterfall_redness_status]: no
    default value stands in for the median. *)
Theorem empty_tallies_raise
    (waterfall_report : Dict.t (list TaskStatusCounts))
    (window_start window_end : Z) (evg_project_name : string) :
  (evg_project_name, []) ∈ waterfall_report →
  Py.median (map failed []) = Raise StatisticsError
  ∧ _get_waterfall_redness_status waterfall_report window_start window_end
    = Raise StatisticsError.
Proof.
  intros Hin. split; [reflexivity|].
  unfold _get_waterfall_redness_status.
  generalize ("`[STATUS]` Evergreen waterfall red and purple boxes median count per day"
    +:+ " between " +:+ Datetime.strftime_ymd window_start
    +:+ " and " +:+ Datetime.strftime_ymd window_end).
  induction waterfall_report as [|[name daily] rest IH]; intros message.
  - inversion Hin.
  - cbn [for_each].
    apply elem_of_cons in Hin as [Heq|Hin].
    + injection Heq as <- <-. reflexivity.
    + destruct (Py.median (map failed daily)) as [m|e] eqn:Hmed.
      * cbn [mbind result_bind]. apply IH, Hin.
      * apply median_raises_only_StatisticsError in Hmed as ->. reflexivity.
Qed.

Lemma empty_tallies_raise_witness :
  (("mongodb-mongo-master", []) : string * list TaskStatusCounts)
    ∈ [("mongodb-mongo-master", [])]
  ∧ _get_waterfall_redness_status [("mongodb-mongo-master", [])] 0 0
    = Raise StatisticsError.
Proof.
  split; [left|].
  apply (empty_tallies_raise [("mongodb-mongo-master", [])] 0 0
           "mongodb-mongo-master"). left.
Defined.

(** ** The waterfall report *)

Lemma Dict_keys_map_snd {V W} (f : string * V → W) (d : Dict.t V) :
  Dict.keys (map (λ kv, (kv.1, f kv)) d) = Dict.keys d.
Proof.
  unfold Dict.keys. induction d as [|[k v] d IH]; [reflexivity|].
  cbn. f_equal. exact IH.
Qed.

Lemma append_at_spec {V} (k : string) (x : V) (d : Dict.t (list V)) :
  k ∈ Dict.keys d → NoDup (Dict.keys d) →
  Dict.append_at k x d
  = Ok (map (λ kv, (kv.1, if String.eqb kv.1 k then kv.2 ++ [x] else kv.2)) d).
Proof.
  unfold Dict.append_at, Dict.keys.
  induction d as [|[k' v] d IH]; intros Hin Hnd.
  - inversion Hin.
  - apply NoDup_cons in Hnd as [Hfresh Hnd]. cbn in Hfresh.
    cbn [Dict.get map fst snd]. destruct (String.eqb_spec k' k) as [->|Hne].
    + cbn. rewrite String.eqb_refl. do 2 f_equal.
      clear IH Hin Hnd. induction d as [|[k'' v''] d IH]; [reflexivity|].
      cbn in Hfresh |- *. apply not_elem_of_cons in Hfresh as [Hne Hfresh].
      destruct (String.eqb_spec k'' k) as [->|_]; [contradiction|].
      f_equal. apply IH, Hfresh.
    + cbn in Hin. apply elem_of_cons in Hin as [->|Hin]; [contradiction|].
      specialize (IH Hin Hnd).
      destruct (Dict.get k d) as [vs|e]; [|discriminate].
      cbn in IH |- *. destruct (String.eqb_spec k' k) as [->|_];
        [contradiction|].
      injection IH as ->. reflexivity.
Qed.

Lemma append_all_spec (ts : list TaskStatusCounts)
    (d : Dict.t (list TaskStatusCounts)) :
  NoDup (Dict.keys d) → (∀ t, t ∈ ts → project t ∈ Dict.keys d) →
  for_each (λ report t, Dict.append_at (project t) t report) ts d
  = Ok (map (λ kv, (kv.1, kv.2 ++ filter (λ t, project t = kv.1) ts)) d).
Proof.
  revert d. induction ts as [|t ts IH]; intros d Hnd Hin.
  - cbn [for_each]. f_equal. clear Hnd Hin.
    induction d as [|[k v] d IHd]; [reflexivity|].
    cbn [map fst snd]. rewrite filter_nil, app_nil_r. f_equal. exact IHd.
  - cbn [for_each]. rewrite append_at_spec by (auto using list_elem_of_here).
    cbn [mbind result_bind]. rewrite IH.
    + f_equal. rewrite map_map. apply map_ext. intros [k v]. cbn [fst snd].
      f_equal. rewrite filter_cons.
      destruct (String.eqb_spec k (project t)) as [->|Hne].
      * rewrite decide_True by reflexivity. rewrite <- app_assoc. reflexivity.
      * rewrite decide_False by congruence. reflexivity.
    + rewrite Dict_keys_map_snd. exact Hnd.
    + intros t' Ht'. rewrite Dict_keys_map_snd. apply Hin. right. exact Ht'.
Qed.

Lemma Dict_set_keys {V} (k : string) (v : V) (d : Dict.t V) :
  Dict.keys (Dict.set k v d)
  = if bool_decide (k ∈ Dict.keys d) then Dict.keys d else Dict.keys d ++ [k].
Proof.
  unfold Dict.keys. induction d as [|[k' v'] d IH].
  - reflexivity.
  - cbn [Dict.set]. destruct (String.eqb_spec k' k) as [->|Hne].
    + rewrite bool_decide_eq_true_2 by (cbn; left). reflexivity.
    + cbn [fmap list_fmap fst]. cbn in IH. rewrite IH.
      destruct (decide (k ∈ d.*1)) as [Hin|Hout].
      * rewrite (bool_decide_eq_true_2 _ Hin).
        rewrite bool_decide_eq_true_2 by (right; exact Hin). reflexivity.
      * rewrite (bool_decide_eq_false_2 _ Hout).
        rewrite bool_decide_eq_false_2; [reflexivity|].
        intros [?|?]%elem_of_cons; [congruence | contradiction].
Qed.

Lemma Dict_set_values {V} (k : string) (v : V) (d : Dict.t V) :
  Forall (λ kv, kv.2 = v) d → Forall (λ kv, kv.2 = v) (Dict.set k v d).
Proof.
  induction d as [|[k' v'] d IH]; intros Hd.
  - repeat constructor.
  - apply Forall_cons in Hd as [Hv Hd]. cbn [Dict.set].
    destruct (String.eqb k' k); constructor; auto.
Qed.

Lemma from_keys_spec {V} (ks : list string) (v : V) :
  let d := Dict.from_keys ks v in
  NoDup (Dict.keys d) ∧ Forall (λ kv, kv.2 = v) d
  ∧ (∀ k, k ∈ Dict.keys d ↔ k ∈ ks)
  ∧ (NoDup ks → Dict.keys d = ks).
Proof.
  unfold Dict.from_keys.
  assert (Hgen : ∀ d0 : Dict.t V,
    NoDup (Dict.keys d0) → Forall (λ kv, kv.2 = v) d0 →
    let d := fold_left (λ d k, Dict.set k v d) ks d0 in
    NoDup (Dict.keys d) ∧ Forall (λ kv, kv.2 = v) d
    ∧ (∀ k, k ∈ Dict.keys d ↔ k ∈ Dict.keys d0 ∨ k ∈ ks)
    ∧ (NoDup ks → (∀ k, k ∈ ks → k ∉ Dict.keys d0) →
       Dict.keys d = Dict.keys d0 ++ ks)).
  { induction ks as [|k ks IH]; intros d0 Hnd Hv; cbn [fold_left].
    - repeat split; auto.
      + intros [?|Hin]; [assumption | inversion Hin].
      + intros _ _. rewrite app_nil_r. reflexivity.
    - assert (Hkeys := Dict_set_keys k v d0).
      destruct (IH (Dict.set k v d0)) as (H1 & H2 & H3 & H4).
      + rewrite Hkeys. case_bool_decide; [exact Hnd|].
        apply NoDup_app. repeat split; auto.
        * intros x Hx Hx'. apply list_elem_of_singleton in Hx'. subst. auto.
        * apply NoDup_singleton.
      + apply Dict_set_values, Hv.
      + split; [exact H1|]. split; [exact H2|]. split.
        * intros k'. rewrite H3, Hkeys. case_bool_decide.
          -- rewrite elem_of_cons. split; [tauto|].
             intros [?|[->|?]]; auto.
          -- rewrite elem_of_app, list_elem_of_singleton, elem_of_cons. tauto.
        * intros Hks Hfresh. apply NoDup_cons in Hks as [Hk Hks].
          rewrite H4; [| exact Hks |].
          -- rewrite Hkeys, bool_decide_eq_false_2.
             ++ rewrite <- app_assoc. reflexivity.
             ++ apply Hfresh. left.
          -- intros k' Hk'. rewrite Hkeys. case_bool_decide.
             ++ apply Hfresh. right. exact Hk'.
             ++ rewrite elem_of_app, list_elem_of_singleton.
                intros [?| ->]; [|contradiction].
                apply (Hfresh k'); [right|]; assumption. }
  destruct (Hgen [] (NoDup_nil_2) (Forall_nil_2 _)) as (H1 & H2 & H3 & H4).
  cbv zeta. split; [exact H1|]. split; [exact H2|]. split.
  - intros k. rewrite H3. split; [intros [Hin|?]; [inversion Hin | assumption]
                                 | auto].
  - intros Hks. rewrite H4; [reflexivity | exact Hks |].
    intros k _ Hin. inversion Hin.
Qed.

Lemma project_status_of_sum (build_statuses : list TaskStatusCounts)
    (name : string) :
  project_status_of build_statuses name = sum_of_project build_statuses name.
Proof.
  unfold project_status_of, sum_of_project.
  generalize (TaskStatusCounts_of_project name).
  induction build_statuses as [|b bs IH]; intros acc; [reflexivity|].
  cbn [fold_left]. rewrite filter_cons.
  destruct (String.eqb_spec (project b) name) as [Heq|Hne].
  - rewrite decide_True by exact Heq. cbn [fold_left]. apply IH.
  - rewrite decide_False by exact Hne. apply IH.
Qed.

Lemma sum_of_project_project (build_statuses : list TaskStatusCounts)
    (name : string) :
  project (sum_of_project build_statuses name) = name.
Proof.
  unfold sum_of_project.
  assert (Hgen : ∀ bs acc, project (fold_left TaskStatusCounts_add bs acc)
                           = project acc).
  { induction bs as [|b bs IH]; intros acc; [reflexivity|].
    cbn [fold_left]. rewrite IH. reflexivity. }
  rewrite Hgen. reflexivity.
Qed.



Lemma filter_key_accumulated (build_statuses : list TaskStatusCounts)
    (names : list string) (k : string) :
  filter (λ t, project t = k)
    (_accumulate_project_statuses names build_statuses)
  = map (project_status_of build_statuses) (filter (λ name, name = k) names).
Proof.
  unfold _accumulate_project_statuses.
  induction names as [|name names IH]; [reflexivity|].
  cbn [map]. rewrite !filter_cons, project_status_of_sum,
    sum_of_project_project.
  destruct (decide (name = k)).
  - cbn [map]. rewrite project_status_of_sum. f_equal. exact IH.
  - exact IH.
Qed.

Lemma filter_flat_map {A B} (P : B → Prop) `{∀ x, Decision (P x)}
    (f : A → list B) (l : list A) :
  filter P (flat_map f l) = flat_map (λ x, filter P (f x)) l.
Proof.
  induction l as [|x l IH]; [reflexivity|].
  cbn [flat_map]. rewrite filter_app, IH. reflexivity.
Qed.



(** What [_make_waterfall_report] returns, for any list of names. *)
Lemma _make_waterfall_report_spec (evg_service : EvergreenService)
    (evg_project_names : list string) (window_end : Z) :
  _make_waterfall_report evg_service evg_project_names window_end
  = Ok (map (λ kv,
               (kv.1,
                flat_map
                  (λ day,
                     map (project_status_of
                            (builds_of_day evg_service evg_project_names
                               window_end day))
                       (filter (λ name, name = kv.1) evg_project_names))
                  (seq 0 EVERGREEN_LOOKBACK_DAYS)))
          (Dict.from_keys evg_project_names (@nil TaskStatusCounts))).
Proof.
  unfold _make_waterfall_report.
  destruct (from_keys_spec evg_project_names (@nil TaskStatusCounts))
    as (Hnd & Hvalues & Hkeys & _).
  rewrite append_all_spec.
  - f_equal. apply map_ext_in. intros [k vs] Hin.
    apply list_elem_of_In in Hin.
    rewrite Forall_forall in Hvalues. rewrite (Hvalues _ Hin).
    cbn [fst snd app]. f_equal.
    rewrite filter_flat_map. apply flat_map_ext. intros day.
    unfold day_statuses, builds_of_day.
    destruct (day_window window_end day) as [day_window_start day_window_end].
    apply filter_key_accumulated.
  - exact Hnd.
  - intros t Ht. apply Hkeys. apply list_elem_of_In, in_flat_map in Ht.
    destruct Ht as (day & _ & Ht). unfold day_statuses in Ht.
    destruct (day_window window_end day) as [day_window_start day_window_end].
    unfold _accumulate_project_statuses in Ht. apply in_map_iff in Ht.
    destruct Ht as (name & <- & Hname).
    rewrite project_status_of_sum, sum_of_project_project.
    apply list_elem_of_In, Hname.
Qed.


Lemma median_nonempty (data : list Z) :
  data ≠ [] → ∃ m, Py.median data = Ok m.
Proof.
  intros Hne. unfold Py.median.
  assert (Hlen : length (merge_sort Z.le data) = length data)
    by (apply Permutation_length, merge_sort_Permutation).
  rewrite Hlen. destruct data as [|x data]; [contradiction|].
  cbn [length Nat.eqb].
  destruct (_ mod 2 =? 1)%nat; [eexists; reflexivity|].
  unfold Float.int_truediv. cbn. eexists. reflexivity.
Qed.

Lemma _get_waterfall_redness_status_ok
    (waterfall_report : Dict.t (list TaskStatusCounts))
    (window_start window_end : Z) :
  Forall (λ kv, kv.2 ≠ []) waterfall_report →
  ∃ msg,
    _get_waterfall_redness_status waterfall_report window_start window_end
    = Ok msg.
Proof.
  unfold _get_waterfall_redness_status.
  generalize ("`[STATUS]` Evergreen waterfall red and purple boxes median count per day"
    +:+ " between " +:+ Datetime.strftime_ymd window_start
    +:+ " and " +:+ Datetime.strftime_ymd window_end).
  induction waterfall_report as [|[name daily] rest IH]; intros message Hall.
  - eexists. reflexivity.
  - apply Forall_cons in Hall as [Hdaily Hall]. cbn in Hdaily.
    cbn [for_each].
    destruct (median_nonempty (map failed daily)) as [m Hm].
    { destruct daily; [contradiction | discriminate]. }
    rewrite Hm. cbn [mbind result_bind]. apply IH, Hall.
Qed.

(** On any list of names the report is built without a failed lookup, has
    the listed names as keys, and gives each of them at least one tally. *)
Lemma _make_waterfall_report_ok (evg_service : EvergreenService)
    (evg_project_names : list string) (window_end : Z) :
  ∃ report,
    _make_waterfall_report evg_service evg_project_names window_end
    = Ok report
    ∧ (∀ k, k ∈ Dict.keys report ↔ k ∈ evg_project_names)
    ∧ Forall (λ kv, kv.2 ≠ []) report.
Proof.
  eexists. split; [apply _make_waterfall_report_spec|].
  destruct (from_keys_spec evg_project_names (@nil TaskStatusCounts))
    as (_ & _ & Hkeys & _).
  split.
  - intros k. rewrite (Dict_keys_map_snd (λ kv, flat_map _ _)). apply Hkeys.
  - apply Forall_forall. intros kv Hkv.
    apply list_elem_of_In, in_map_iff in Hkv.
    destruct Hkv as ([k vs] & <- & Hin). cbn [fst snd].
    assert (Hk : k ∈ evg_project_names).
    { apply Hkeys. unfold Dict.keys. apply list_elem_of_In, in_map_iff.
      exists (k, vs). split; [reflexivity | exact Hin]. }
    unfold EVERGREEN_LOOKBACK_DAYS. cbn [seq flat_map].
    destruct (filter (λ name, name = k) evg_project_names) eqn:Hfilter.
    + exfalso. apply (filter_nil_not_elem_of _ _ k Hfilter); auto.
    + discriminate.
Qed.




(** ** The run *)

Lemma evaluate_build_redness_missing_branch
    (jira_service : JiraService) (evg_service : EvergreenService) (utcnow : Z)
    (as_str_table : BFsReport.t → string) (EVERGREEN_PROJECT : string)
    (repo branch : string) (notify : bool) :
  branch_to_projects_map (get_evg_project_info evg_service repo branch)
    !! branch = None →
  evaluate_build_redness jira_service evg_service utcnow as_str_table
    EVERGREEN_PROJECT repo branch notify
  = Raise (KeyError branch).
Proof.
  intros Hnone. unfold evaluate_build_redness. rewrite Hnone. reflexivity.
Qed.

(** A run whose branch has a list of projects, empty or not, completes. *)
Lemma evaluate_build_redness_ok
    (jira_service : JiraService) (evg_service : EvergreenService) (utcnow : Z)
    (as_str_table : BFsReport.t → string) (EVERGREEN_PROJECT : string)
    (repo branch : string) (notify : bool) (evg_project_names : list string) :
  let evg_projects_info := get_evg_project_info evg_service repo branch in
  let bfs_report :=
    _make_bfs_report jira_service EVERGREEN_PROJECT evg_projects_info in
  branch_to_projects_map evg_projects_info !! branch
  = Some evg_project_names →
  ∃ out bf_count_status_msg waterfall_report waterfall_msg,
    evaluate_build_redness jira_service evg_service utcnow as_str_table
      EVERGREEN_PROJECT repo branch notify
    = Ok out
    ∧ _get_bf_counts_status as_str_table bfs_report
      = Ok (bf_count_status_msg, threshold_percentages out)
    ∧ _make_waterfall_report evg_service evg_project_names
        (window_end_at utcnow)
      = Ok waterfall_report
    ∧ _get_waterfall_redness_status waterfall_report
        (window_start_at utcnow) (window_end_at utcnow)
      = Ok waterfall_msg
    ∧ status_message out
      = (((Py.nl +:+ "`[STATUS]` '" +:+ repo +:+ "' repo '" +:+ branch
             +:+ "' branch")
            +:+ Py.nl +:+ bf_count_status_msg +:+ Py.nl)
           +:+ Py.nl +:+ waterfall_msg +:+ Py.nl)
        +:+ Py.nl +:+ action_line (verdict (threshold_percentages out))
    ∧ logged_lines out = Py.split_lines (status_message out)
    ∧ slack_message out
      = if notify then Some (Py.strip (status_message out)) else None.
Proof.
  intros evg_projects_info bfs_report Hnames.
  unfold evaluate_build_redness. fold evg_projects_info. rewrite Hnames.
  cbn [mbind result_bind]. fold bfs_report.
  destruct (_get_bf_counts_status_percentages as_str_table bfs_report)
    as (bf_msg & percentages & Hbf & _).
  rewrite Hbf. cbn [mbind result_bind].
  destruct (_make_waterfall_report_ok evg_service evg_project_names
              (window_end_at utcnow)) as (report & Hreport & _ & Hnonempty).
  rewrite Hreport. cbn [mbind result_bind].
  destruct (_get_waterfall_redness_status_ok report (window_start_at utcnow)
              (window_end_at utcnow) Hnonempty) as (wf_msg & Hwf).
  rewrite Hwf. cbn [mbind result_bind].
  eexists _, bf_msg, report, wf_msg.
  split; [reflexivity|]. cbn [threshold_percentages status_message
                                logged_lines slack_message app].
  repeat split; try assumption; try reflexivity.
Qed.

(** The message of [_get_waterfall_redness_status] lists, after its header,
    one line per project of the report with the median of its failed counts. *)
Lemma _get_waterfall_redness_status_medians
    (waterfall_report : Dict.t (list TaskStatusCounts))
    (window_start window_end : Z) (msg : string) :
  _get_waterfall_redness_status waterfall_report window_start window_end
  = Ok msg →
  ∃ medians,
    Forall2 (λ kv m, Py.median (map failed kv.2) = Ok m)
      waterfall_report medians
    ∧ msg = fold_left add_median_line
              (zip (Dict.keys waterfall_report) medians)
              (waterfall_header window_start window_end).
Proof.
  unfold _get_waterfall_redness_status.
  fold (waterfall_header window_start window_end).
  generalize (waterfall_header window_start window_end).
  induction waterfall_report as [|[name daily] rest IH]; intros header.
  - cbn [for_each]. intros [= <-]. exists []. split; [constructor|reflexivity].
  - cbn [for_each]. destruct (Py.median (map failed daily)) as [m|e] eqn:Hm;
      [|discriminate].
    cbn [mbind result_bind]. intros Hrest.
    destruct (IH _ Hrest) as (medians & Hall & ->).
    exists (m :: medians). split; [constructor; assumption|reflexivity].
Qed.

Lemma evaluate_build_redness_inv
    (jira_service : JiraService) (evg_service : EvergreenService) (utcnow : Z)
    (as_str_table : BFsReport.t → string) (EVERGREEN_PROJECT : string)
    (repo branch : string) (notify : bool) (out : Outcome) :
  let evg_projects_info := get_evg_project_info evg_service repo branch in
  let bfs_report :=
    _make_bfs_report jira_service EVERGREEN_PROJECT evg_projects_info in
  evaluate_build_redness jira_service evg_service utcnow as_str_table
    EVERGREEN_PROJECT repo branch notify
  = Ok out →
  ∃ evg_project_names bf_count_status_msg waterfall_report waterfall_msg,
    branch_to_projects_map evg_projects_info !! branch
    = Some evg_project_names
    ∧ _get_bf_counts_status as_str_table bfs_report
      = Ok (bf_count_status_msg, threshold_percentages out)
    ∧ _make_waterfall_report evg_service evg_project_names
        (window_end_at utcnow)
      = Ok waterfall_report
    ∧ _get_waterfall_redness_status waterfall_report
        (window_start_at utcnow) (window_end_at utcnow)
      = Ok waterfall_msg
    ∧ status_message out
      = (((Py.nl +:+ "`[STATUS]` '" +:+ repo +:+ "' repo '" +:+ branch
             +:+ "' branch")
            +:+ Py.nl +:+ bf_count_status_msg +:+ Py.nl)
           +:+ Py.nl +:+ waterfall_msg +:+ Py.nl)
        +:+ Py.nl +:+ action_line (verdict (threshold_percentages out)).
Proof.
  intros evg_projects_info bfs_report Hrun.
  destruct (branch_to_projects_map evg_projects_info !! branch)
    as [evg_project_names|] eqn:Hnames.
  - destruct (evaluate_build_redness_ok jira_service evg_service utcnow
                as_str_table EVERGREEN_PROJECT repo branch notify
                evg_project_names Hnames)
      as (out' & bf_msg & report & wf_msg & Hrun' & Hbf & Hrep & Hwf & Hmsg & _).
    rewrite Hrun in Hrun'. injection Hrun' as <-.
    exists evg_project_names, bf_msg, report, wf_msg. auto.
  - rewrite evaluate_build_redness_missing_branch in Hrun by exact Hnames.
    discriminate.
Qed.

(** The log of a completed run, in the order of its statements. *)
Lemma evaluate_build_redness_log
    (jira_service : JiraService) (evg_service : EvergreenService) (utcnow : Z)
    (as_str_table : BFsReport.t → string) (EVERGREEN_PROJECT : string)
    (repo branch : string) (notify : bool) (out : Outcome) :
  let evg_projects_info := get_evg_project_info evg_service repo branch in
  evaluate_build_redness jira_service evg_service utcnow as_str_table
    EVERGREEN_PROJECT repo branch notify
  = Ok out →
  ∃ evg_project_names waterfall_report,
    branch_to_projects_map evg_projects_info !! branch
    = Some evg_project_names
    ∧ _make_waterfall_report evg_service evg_project_names
        (window_end_at utcnow)
      = Ok waterfall_report
    ∧ logged_lines out = Py.split_lines (status_message out)
    ∧ log out
      = [info "Getting Evergreen projects data";
         info "Got Evergreen projects data"]
        ++ _make_bfs_report_log jira_service EVERGREEN_PROJECT
             evg_projects_info
        ++ _make_waterfall_report_log evg_project_names (window_end_at utcnow)
        ++ _get_waterfall_redness_status_log waterfall_report
        ++ map info (logged_lines out)
        ++ (if notify then [slack_event] else []).
Proof.
  intros evg_projects_info. unfold evaluate_build_redness.
  fold evg_projects_info.
  destruct (branch_to_projects_map evg_projects_info !! branch)
    as [evg_project_names|]; [|discriminate].
  cbn [mbind result_bind].
  destruct (_get_bf_counts_status as_str_table _) as [[bf_msg ps]|];
    [|discriminate].
  cbn [mbind result_bind].
  destruct (_make_waterfall_report evg_service evg_project_names
              (window_end_at utcnow)) as [waterfall_report|] eqn:Hreport;
    [|discriminate].
  cbn [mbind result_bind].
  destruct (_get_waterfall_redness_status waterfall_report
              (window_start_at utcnow) (window_end_at utcnow))
    as [waterfall_msg|]; [|discriminate].
  cbn [mbind result_bind]. intros Hout.
  exists evg_project_names, waterfall_report.
  split; [reflexivity|]. split; [exact Hreport|].
  apply Ok_inj in Hout. subst out. split; reflexivity.
Qed.

Lemma Dict_get_map {V W} (f : string → V → W) (d : Dict.t V) (k : string) :
  Dict.get k (map (λ kv, (kv.1, f kv.1 kv.2)) d) = f k <$> Dict.get k d.
Proof.
  induction d as [|[k' v] d IH]; [reflexivity|].
  cbn [map Dict.get fst snd]. destruct (String.eqb_spec k' k) as [->|_].
  - reflexivity.
  - exact IH.
Qed.

Lemma Dict_get_from_keys {V} (ks : list string) (v : V) (k : string) :
  k ∈ ks → Dict.get k (Dict.from_keys ks v) = Ok v.
Proof.
  intros Hk. destruct (from_keys_spec ks v) as (_ & Hvalues & Hkeys & _).
  apply Hkeys in Hk. revert Hvalues Hk. generalize (Dict.from_keys ks v).
  unfold Dict.keys. intros d. induction d as [|[k' v'] d IH]; intros Hv Hk.
  - inversion Hk.
  - apply Forall_cons in Hv as [Hv' Hv]. cbn in Hv'. subst v'.
    cbn [Dict.get]. destruct (String.eqb_spec k' k) as [->|Hne].
    + reflexivity.
    + cbn in Hk. apply elem_of_cons in Hk as [->|Hk]; [contradiction|].
      apply IH; assumption.
Qed.

Lemma window_end_at_midnight (now : Z) :
  window_end_at now
  = (now / Datetime.usec_per_day - 1) * Datetime.usec_per_day.
Proof.
  pose proof usec_per_day_pos as Hpos.
  unfold window_end_at, Datetime.at_midnight, Datetime.timedelta_days.
  rewrite Z.mod_eq by lia. lia.
Qed.

(** ** The lookback window of a run *)

(** What [_make_waterfall_report] asks and returns, for any list of names
    and any end of the window: the tallies of a name are those of the
    fourteen one-day windows that end at [window_end - d days], [d = 0..13]
    in that order. *)
Lemma _make_waterfall_report_days (evg_service : EvergreenService)
    (evg_project_names : list string) (window_end : Z) :
  let sub_window (d : nat) :=
    (window_end - (Z.of_nat d + 1) * Datetime.usec_per_day,
     window_end - Z.of_nat d * Datetime.usec_per_day) in
  ∃ waterfall_report,
    _make_waterfall_report evg_service evg_project_names window_end
    = Ok waterfall_report
    ∧ ∀ name, name ∈ evg_project_names →
        Dict.get name waterfall_report
        = Ok (flat_map
                (λ d,
                   map (project_status_of
                          (get_waterfall_status evg_service evg_project_names
                             (sub_window d).1 (sub_window d).2))
                     (filter (λ n, n = name) evg_project_names))
                (seq 0 14)).
Proof.
  intros sub_window. eexists. split; [apply _make_waterfall_report_spec|].
  intros name Hname.
  pose proof (Dict_get_map
                (λ k (_ : list TaskStatusCounts),
                   flat_map
                     (λ day, map (project_status_of
                                    (builds_of_day evg_service
                                       evg_project_names window_end day))
                               (filter (λ n, n = k) evg_project_names))
                     (seq 0 EVERGREEN_LOOKBACK_DAYS))
                (Dict.from_keys evg_project_names []) name) as Hget.
  cbn beta in Hget. rewrite Hget. clear Hget.
  rewrite Dict_get_from_keys by exact Hname.
  cbn [fmap result_fmap]. f_equal. apply flat_map_ext. intros d.
  unfold builds_of_day. rewrite day_window_bounds. reflexivity.
Qed.

(** C7. In a run at the time [utcnow] the window ends at 00:00 UTC of the
    day before the current UTC day and starts fourteen days earlier: these
    two instants date the waterfall message, and the end is the one that
    the run gives to [_make_waterfall_report].  For any end of the window,
    [_make_waterfall_report] asks Evergreen fourteen times, once per day
    [d = 0..13] in that order, for the one-day window from
    [end - (d+1) days] to [end - d days]: the tallies of a project are
    those of day 0, then of day 1, and so on, and the log names the same
    fourteen windows in the same order.  These fourteen windows partition
    the fourteen days before the end. *)
Theorem lookback_window_partition
    (jira_service : JiraService) (evg_service : EvergreenService) (utcnow : Z)
    (as_str_table : BFsReport.t → string) (EVERGREEN_PROJECT : string)
    (repo branch : string) (notify : bool) :
  let one_day := Datetime.usec_per_day in
  let days := [0; 1; 2; 3; 4; 5; 6; 7; 8; 9; 10; 11; 12; 13]%nat in
  let sub_window (window_end : Z) (d : nat) :=
    (window_end - (Z.of_nat d + 1) * one_day,
     window_end - Z.of_nat d * one_day) in
  let day_event (evg_project_names : list string) (window_end : Z) (d : nat) :=
    {| event := "Getting Evergreen waterfall data";
       kwargs :=
         [("projects", LogStrs evg_project_names);
          ("window_start",
           LogStr (Datetime.isoformat (sub_window window_end d).1));
          ("window_end",
           LogStr (Datetime.isoformat (sub_window window_end d).2))] |} in
  (∀ evg_project_names window_end,
     ∃ waterfall_report,
       _make_waterfall_report evg_service evg_project_names window_end
       = Ok waterfall_report
       ∧ (∀ name, name ∈ evg_project_names →
            Dict.get name waterfall_report
            = Ok (flat_map
                    (λ d,
                       map (project_status_of
                              (get_waterfall_status evg_service
                                 evg_project_names
                                 (sub_window window_end d).1
                                 (sub_window window_end d).2))
                         (filter (λ n, n = name) evg_project_names))
                    days))
       ∧ _make_waterfall_report_log evg_project_names window_end
         = map (day_event evg_project_names window_end) days)
  ∧ (∀ out,
       evaluate_build_redness jira_service evg_service utcnow as_str_table
         EVERGREEN_PROJECT repo branch notify = Ok out →
       let window_end := (utcnow / one_day - 1) * one_day in
       let window_start := window_end - 14 * one_day in
       ∃ evg_project_names waterfall_report waterfall_msg body,
         branch_to_projects_map
           (get_evg_project_info evg_service repo branch) !! branch
         = Some evg_project_names
         ∧ _make_waterfall_report evg_service evg_project_names window_end
           = Ok waterfall_report
         ∧ take 14 (drop 4 (log out))
           = map (day_event evg_project_names window_end) days
         ∧ _get_waterfall_redness_status waterfall_report window_start
             window_end = Ok waterfall_msg
         ∧ status_message out
           = (body +:+ Py.nl +:+ waterfall_msg +:+ Py.nl)
             +:+ Py.nl +:+ action_line (verdict (threshold_percentages out)))
  ∧ (∀ window_end t,
       window_end - 14 * one_day ≤ t < window_end
       ↔ ∃ d, (d < 14)%nat
           ∧ (sub_window window_end d).1 ≤ t < (sub_window window_end d).2)
  ∧ (∀ window_end t d d',
       (sub_window window_end d).1 ≤ t < (sub_window window_end d).2 →
       (sub_window window_end d').1 ≤ t < (sub_window window_end d').2 →
       d = d').
Proof.
  intros one_day days sub_window day_event.
  assert (Hwindow : ∀ window_end d,
            day_window window_end d = sub_window window_end d)
    by (intros window_end d; apply day_window_bounds).
  assert (Hevents : ∀ names window_end,
            _make_waterfall_report_log names window_end
            = map (day_event names window_end) days).
  { intros names window_end. unfold _make_waterfall_report_log.
    change (seq 0 EVERGREEN_LOOKBACK_DAYS) with days.
    apply map_ext. intros d. rewrite Hwindow. reflexivity. }
  split; [|split; [|split]].
  - intros names window_end.
    destruct (_make_waterfall_report_days evg_service names window_end)
      as (report & Hreport & Hget).
    exists report. split; [exact Hreport|]. split; [exact Hget | apply Hevents].
  - intros out Hrun window_end window_start.
    pose proof (window_end_at_midnight utcnow) as Hend. fold one_day in Hend.
    fold window_end in Hend.
    assert (Hstart : window_start_at utcnow = window_start).
    { unfold window_start_at. rewrite Hend. reflexivity. }
    destruct (evaluate_build_redness_log _ _ _ _ _ _ _ _ _ Hrun)
      as (names & report & Hnames & Hreport & _ & Hlog).
    apply evaluate_build_redness_inv in Hrun
      as (names' & bf_msg & report' & wf_msg & Hnames' & _ & Hreport' & Hwf
          & Hmsg).
    rewrite Hnames in Hnames'. injection Hnames' as <-.
    rewrite Hreport in Hreport'. apply Ok_inj in Hreport'. subst report'.
    rewrite Hend in Hreport, Hwf, Hlog. rewrite Hstart in Hwf.
    exists names, report, wf_msg. eexists.
    split; [exact Hnames|]. split; [exact Hreport|].
    split; [|split; [exact Hwf | exact Hmsg]].
    rewrite Hlog.
    change ([info "Getting Evergreen projects data";
             info "Got Evergreen projects data"]
            ++ _make_bfs_report_log jira_service EVERGREEN_PROJECT
                 (get_evg_project_info evg_service repo branch)
            ++ ?rest)
      with (info "Getting Evergreen projects data"
            :: info "Got Evergreen projects data"
            :: _make_bfs_report_log jira_service EVERGREEN_PROJECT
                 (get_evg_project_info evg_service repo branch) ++ rest).
    unfold _make_bfs_report_log. cbn [app drop]. rewrite drop_0.
    rewrite take_app_length'
      by (rewrite Hevents, length_map; reflexivity).
    apply Hevents.
  - intros window_end t.
    pose proof (day_window_covers window_end t 14) as Hcovers.
    change (Z.of_nat 14) with 14 in Hcovers. fold one_day in Hcovers.
    rewrite Hcovers. clear Hcovers.
    split; intros (d & Hd & Hin); exists d; (split; [exact Hd|]);
      rewrite Hwindow in *; exact Hin.
  - intros window_end t d d' Hd Hd'. rewrite <- !Hwindow in Hd, Hd'.
    exact (day_window_disjoint window_end t d d' Hd Hd').
Qed.

Lemma lookback_window_partition_witness :
  let evg_service := sample_evg ["mongodb-mongo-master"] 3 in
  ∃ out waterfall_report,
    evaluate_build_redness (sample_jira 4) evg_service sample_now
      sample_table "Evergreen Project" "10gen/mongo" "master" false = Ok out
    ∧ _make_waterfall_report evg_service ["mongodb-mongo-master"]
        ((sample_now / Datetime.usec_per_day - 1) * Datetime.usec_per_day)
      = Ok waterfall_report
    ∧ log out !! 4%nat
      = Some {| event := "Getting Evergreen waterfall data";
                kwargs :=
                  [("projects", LogStrs ["mongodb-mongo-master"]);
                   ("window_start", LogStr "2026-11-02T00:00:00+00:00");
                   ("window_end", LogStr "2026-11-03T00:00:00+00:00")] |}.
Proof.
  intros evg_service.
  destruct (evaluate_build_redness (sample_jira 4) evg_service sample_now
              sample_table "Evergreen Project" "10gen/mongo" "master" false)
    as [out|e] eqn:Hrun; [|vm_compute in Hrun; discriminate Hrun].
  destruct (lookback_window_partition (sample_jira 4) evg_service sample_now
              sample_table "Evergreen Project" "10gen/mongo" "master" false)
    as (_ & Hwindow & _).
  destruct (Hwindow out Hrun) as (names & report & _ & _ & Hnames & Hreport & _).
  vm_compute in Hnames. injection Hnames as <-.
  exists out, report. split; [reflexivity|]. split; [exact Hreport|].
  vm_compute in Hrun. injection Hrun as <-. reflexivity.
Defined.

(** ** What the verdict depends on *)

Lemma percentages_determined (counts : list (Z * Z)) (ps1 ps2 : list Q) :
  Forall2 (λ ct p, percentage ct.1 ct.2 = Ok p) counts ps1 →
  Forall2 (λ ct p, percentage ct.1 ct.2 = Ok p) counts ps2 →
  ps1 = ps2.
Proof.
  intros H1. revert ps2. induction H1 as [|ct p counts ps1 Hp _ IH];
    intros ps2 H2.
  - apply Forall2_nil_inv_l in H2. congruence.
  - apply Forall2_cons_inv_l in H2 as (p' & ps2' & Hp' & H2 & ->).
    f_equal; [congruence | apply IH, H2].
Qed.

(** C2. The verdict of a run is computed from the six percentages of the BF
    counts and from nothing else: two completed runs whose reports have the
    same six counts have the same threshold percentages and the same
    verdict, whatever their waterfall data, clocks and other inputs.  The
    medians of the waterfall report are lines of the status message, which
    ends with the action line of that verdict; they are not among the
    threshold percentages. *)
Theorem verdict_depends_on_bf_counts_only
    (jira1 jira2 : JiraService) (evg1 evg2 : EvergreenService)
    (utcnow1 utcnow2 : Z) (as_str_table1 as_str_table2 : BFsReport.t → string)
    (field1 field2 repo1 repo2 branch1 branch2 : string)
    (notify1 notify2 : bool) (out1 out2 : Outcome) :
  let report1 :=
    _make_bfs_report jira1 field1 (get_evg_project_info evg1 repo1 branch1) in
  let report2 :=
    _make_bfs_report jira2 field2 (get_evg_project_info evg2 repo2 branch2) in
  evaluate_build_redness jira1 evg1 utcnow1 as_str_table1 field1 repo1
    branch1 notify1 = Ok out1 →
  evaluate_build_redness jira2 evg2 utcnow2 as_str_table2 field2 repo2
    branch2 notify2 = Ok out2 →
  bf_counts report1 = bf_counts report2 →
  threshold_percentages out1 = threshold_percentages out2
  ∧ verdict (threshold_percentages out1) = verdict (threshold_percentages out2)
  ∧ Forall2 (λ ct p, percentage ct.1 ct.2 = Ok p)
      (zip (bf_counts report1) bf_thresholds) (threshold_percentages out1)
  ∧ length (threshold_percentages out1) = 6%nat
  ∧ ∃ body waterfall_report medians,
      Forall2 (λ kv m, Py.median (map failed kv.2) = Ok m)
        waterfall_report medians
      ∧ status_message out1
        = (body +:+ Py.nl
             +:+ fold_left add_median_line
                   (zip (Dict.keys waterfall_report) medians)
                   (waterfall_header (window_start_at utcnow1)
                      (window_end_at utcnow1))
             +:+ Py.nl)
          +:+ Py.nl +:+ action_line (verdict (threshold_percentages out1)).
Proof.
  intros report1 report2 Hrun1 Hrun2 Hcounts.
  apply evaluate_build_redness_inv in Hrun1
    as (names1 & bf_msg1 & wreport1 & wf_msg1 & _ & Hbf1 & _ & Hwf1 & Hmsg1).
  apply evaluate_build_redness_inv in Hrun2
    as (names2 & bf_msg2 & wreport2 & wf_msg2 & _ & Hbf2 & _ & _ & _).
  fold report1 in Hbf1. fold report2 in Hbf2.
  destruct (_get_bf_counts_status_percentages as_str_table1 report1)
    as (m1 & ps1 & Hps1 & Hall1).
  destruct (_get_bf_counts_status_percentages as_str_table2 report2)
    as (m2 & ps2 & Hps2 & Hall2).
  rewrite Hbf1 in Hps1. injection Hps1 as <- <-.
  rewrite Hbf2 in Hps2. injection Hps2 as <- <-.
  assert (Heq : threshold_percentages out1 = threshold_percentages out2).
  { rewrite <- Hcounts in Hall2. eapply percentages_determined; eassumption. }
  split; [exact Heq|]. split; [rewrite Heq; reflexivity|].
  split; [exact Hall1|]. split.
  - apply Forall2_length in Hall1. rewrite <- Hall1.
    unfold bf_counts. destruct (max_per_team report1) as [[? ?] ?].
    reflexivity.
  - apply _get_waterfall_redness_status_medians in Hwf1
      as (medians & Hmedians & ->).
    eexists _, wreport1, medians. split; [exact Hmedians | exact Hmsg1].
Qed.

Lemma verdict_depends_on_bf_counts_only_witness :
  let run red :=
    evaluate_build_redness (sample_jira 4)
      (sample_evg ["mongodb-mongo-master"] red) sample_now sample_table
      "Evergreen Project" "10gen/mongo" "master" false in
  ∃ out1 out2,
    run 0 = Ok out1 ∧ run 500 = Ok out2
    ∧ status_message out1 ≠ status_message out2
    ∧ threshold_percentages out1 = threshold_percentages out2
    ∧ verdict (threshold_percentages out1) = YELLOW
    ∧ verdict (threshold_percentages out2) = YELLOW.
Proof.
  intros run.
  destruct (run 0) as [out1|e1] eqn:Hrun1;
    [|vm_compute in Hrun1; discriminate Hrun1].
  destruct (run 500) as [out2|e2] eqn:Hrun2;
    [|vm_compute in Hrun2; discriminate Hrun2].
  unfold run in Hrun1, Hrun2.
  exists out1, out2.
  assert (Hcounts :
    bf_counts (_make_bfs_report (sample_jira 4) "Evergreen Project"
                 (get_evg_project_info (sample_evg ["mongodb-mongo-master"] 0)
                    "10gen/mongo" "master"))
    = bf_counts (_make_bfs_report (sample_jira 4) "Evergreen Project"
                   (get_evg_project_info
                      (sample_evg ["mongodb-mongo-master"] 500)
                      "10gen/mongo" "master")))
    by reflexivity.
  destruct (verdict_depends_on_bf_counts_only _ _ _ _ _ _ _ _ _ _ _ _ _ _ _ _
              out1 out2 Hrun1 Hrun2 Hcounts) as (Hps & Hverdict & _).
  split; [reflexivity|]. split; [reflexivity|].
  vm_compute in Hrun1. injection Hrun1 as <-.
  vm_compute in Hrun2. injection Hrun2 as <-.
  split; [discriminate|]. split; [exact Hps|].
  split; [|rewrite <- Hverdict]; reflexivity.
Defined.

(** ** A branch without projects *)

Lemma _make_bfs_report_no_active_project (jira_service : JiraService)
    (EVERGREEN_PROJECT : string) (info : EvgProjectsInfo) :
  active_project_names info = [] →
  _make_bfs_report jira_service EVERGREEN_PROJECT info = BFsReport.empty.
Proof.
  intros Hnone. unfold _make_bfs_report. cbv zeta.
  generalize (fetch_bfs jira_service
    (ACTIVE_BFS_QUERY +:+ " AND " +:+ Py.dquote +:+ EVERGREEN_PROJECT
       +:+ Py.dquote +:+ " in" +:+ " ("
       +:+ iterable_to_jql (active_project_names info) +:+ ")")).
  intros active_bfs. induction active_bfs as [|bf active_bfs IH];
    [reflexivity|].
  cbn [fold_left]. unfold BFsReport.add_bf_data at 2. rewrite Hnone.
  replace (existsb _ (evergreen_projects bf)) with false; [exact IH|].
  symmetry. induction (evergreen_projects bf) as [|p ps IHp];
    [reflexivity | exact IHp].
Qed.

(** C9, as amended.  The run has no check of its own for a branch without
    projects: when the branch maps to an empty list of projects and no
    project name is active, the run completes; the report is empty, the six
    percentages are zero, no median is computed, and the message ends with
    the GREEN action line. *)
Theorem empty_project_set_completes_green
    (jira_service : JiraService) (evg_service : EvergreenService) (utcnow : Z)
    (as_str_table : BFsReport.t → string) (EVERGREEN_PROJECT : string)
    (repo branch : string) (notify : bool) :
  let evg_projects_info := get_evg_project_info evg_service repo branch in
  branch_to_projects_map evg_projects_info !! branch = Some [] →
  active_project_names evg_projects_info = [] →
  ∃ out body,
    evaluate_build_redness jira_service evg_service utcnow as_str_table
      EVERGREEN_PROJECT repo branch notify
    = Ok out
    ∧ bf_counts (_make_bfs_report jira_service EVERGREEN_PROJECT
                   evg_projects_info) = [0; 0; 0; 0; 0; 0]
    ∧ threshold_percentages out = [0; 0; 0; 0; 0; 0]%Q
    ∧ _make_waterfall_report evg_service [] (window_end_at utcnow) = Ok []
    ∧ verdict (threshold_percentages out) = GREEN
    ∧ status_message out = body +:+ Py.nl +:+ action_line GREEN.
Proof.
  intros evg_projects_info Hnames Hactive.
  destruct (evaluate_build_redness_ok jira_service evg_service utcnow
              as_str_table EVERGREEN_PROJECT repo branch notify [] Hnames)
    as (out & bf_msg & report & wf_msg & Hrun & Hbf & _ & _ & Hmsg & _).
  fold evg_projects_info in Hbf.
  rewrite (_make_bfs_report_no_active_project _ _ _ Hactive) in Hbf |- *.
  destruct (_get_bf_counts_status_percentages as_str_table BFsReport.empty)
    as (bf_msg' & ps & Hbf' & Hps).
  rewrite Hbf in Hbf'. injection Hbf' as <- <-.
  assert (Hzero : threshold_percentages out = [0; 0; 0; 0; 0; 0]%Q).
  { eapply percentages_determined; [exact Hps|].
    replace (zip (bf_counts BFsReport.empty) bf_thresholds)
      with [(0, 30); (0, 100); (0, 30); (0, 7); (0, 20); (0, 10)]
      by (vm_compute; reflexivity).
    repeat (constructor; [vm_compute; reflexivity|]). constructor. }
  exists out. eexists. split; [exact Hrun|]. split; [reflexivity|].
  split; [exact Hzero|]. split; [reflexivity|].
  split; [rewrite Hzero; reflexivity|].
  rewrite Hmsg, Hzero. reflexivity.
Qed.

Lemma empty_project_set_completes_green_witness :
  ∃ out,
    evaluate_build_redness (sample_jira 40) (sample_evg [] 0) sample_now
      sample_table "Evergreen Project" "10gen/mongo" "master" true
    = Ok out
    ∧ verdict (threshold_percentages out) = GREEN.
Proof.
  destruct (empty_project_set_completes_green (sample_jira 40)
              (sample_evg [] 0) sample_now sample_table "Evergreen Project"
              "10gen/mongo" "master" true)
    as (out & body & Hrun & _ & _ & _ & Hgreen & _).
  - reflexivity.
  - reflexivity.
  - exists out. split; [exact Hrun | exact Hgreen].
Defined.

(** The claim C9 as stated fails: on a branch whose list of projects is empty
    the run returns, with six percentages of zero and the GREEN action line,
    and a notification is sent. *)
Lemma empty_project_set_does_not_fail :
  ∃ out,
    evaluate_build_redness (sample_jira 0) (sample_evg [] 0) sample_now
      sample_table "Evergreen Project" "10gen/mongo" "master" true
    = Ok out
    ∧ threshold_percentages out = [0; 0; 0; 0; 0; 0]%Q
    ∧ verdict (threshold_percentages out) = GREEN
    ∧ last (logged_lines out) = Some ""%string
    ∧ is_Some (slack_message out).
Proof. eexists. vm_compute. repeat split. eexists. reflexivity. Qed.


(** ** Rounding to binary64 *)

Section FloatFacts.
#[local] Open Scope Q_scope.

Lemma round_half_even_bounds (q : Q) :
  inject_Z (Float.round_half_even q) - (1 # 2) <= q
  /\ q <= inject_Z (Float.round_half_even q) + (1 # 2).
Proof.
  unfold Float.round_half_even. cbv zeta.
  pose proof (Qfloor_le q) as Hlo. pose proof (Qlt_floor q) as Hhi.
  rewrite inject_Z_plus in Hhi. change (inject_Z 1) with 1 in Hhi.
  destruct (Qcompare_spec (q - inject_Z (Qfloor q)) (1 # 2)) as [He|Hl|Hg].
  - destruct (Z.even (Qfloor q)); rewrite ?inject_Z_plus;
      change (inject_Z 1) with 1; split; lra.
  - split; lra.
  - rewrite inject_Z_plus. change (inject_Z 1) with 1. split; lra.
Qed.

Lemma round_half_even_comp (q q' : Q) :
  q == q' -> Float.round_half_even q = Float.round_half_even q'.
Proof.
  intros Heq. unfold Float.round_half_even. cbv zeta.
  rewrite (Qfloor_comp _ _ Heq).
  replace (Qcompare (q - inject_Z (Qfloor q')) (1 # 2))
    with (Qcompare (q' - inject_Z (Qfloor q')) (1 # 2)); [reflexivity|].
  apply Qcompare_comp; [rewrite Heq|]; reflexivity.
Qed.

Lemma round_half_even_mono (q q' : Q) :
  q <= q' -> (Float.round_half_even q <= Float.round_half_even q')%Z.
Proof.
  intros Hle.
  destruct (Z_le_gt_dec (Float.round_half_even q) (Float.round_half_even q'))
    as [|Hgt]; [assumption|exfalso].
  destruct (round_half_even_bounds q) as [Hq _].
  destruct (round_half_even_bounds q') as [_ Hq'].
  assert (Hstep : inject_Z (Float.round_half_even q') + 1
                  <= inject_Z (Float.round_half_even q)).
  { change 1 with (inject_Z 1). rewrite <- inject_Z_plus, <- Zle_Qle. lia. }
  assert (Heq : q == q') by lra.
  apply round_half_even_comp in Heq. lia.
Qed.

Lemma round_half_even_inject (z : Z) :
  Float.round_half_even (inject_Z z) = z.
Proof.
  unfold Float.round_half_even. cbv zeta. rewrite Qfloor_Z.
  destruct (Qcompare_spec (inject_Z z - inject_Z z) (1 # 2)) as [He|Hl|Hg];
    [exfalso; lra | reflexivity | exfalso; lra].
Qed.


Lemma pow2_pos (k : Z) : 0 < 2 ^ k.
Proof. apply Qpower_0_lt. reflexivity. Qed.

Lemma pow2_plus (a b : Z) : 2 ^ (a + b) == 2 ^ a * 2 ^ b.
Proof. apply Qpower_plus. discriminate. Qed.

Lemma pow2_succ (k : Z) : 2 ^ (k + 1) == 2 * 2 ^ k.
Proof. rewrite pow2_plus. change (2 ^ 1) with 2. ring. Qed.

Lemma pow2_inject (k : Z) : (0 <= k)%Z -> inject_Z (2 ^ k) == 2 ^ k.
Proof. intros Hk. rewrite Zpower_Qpower by exact Hk. reflexivity. Qed.

Lemma pow2_le (a b : Z) : (a <= b)%Z -> 2 ^ a <= 2 ^ b.
Proof. intros Hab. apply Qpower_le_compat_l; [exact Hab | discriminate]. Qed.

Lemma log2_bounds (n : Z) :
  (0 < n)%Z ->
  2 ^ Z.log2 n <= inject_Z n /\ inject_Z n < 2 * 2 ^ Z.log2 n.
Proof.
  intros Hn. destruct (Z.log2_spec n Hn) as [Hlo Hhi].
  pose proof (Z.log2_nonneg n) as Hnonneg.
  rewrite <- pow2_succ, <- !pow2_inject by lia.
  rewrite <- Zle_Qle, <- Zlt_Qlt. split; [exact Hlo|].
  replace (Z.log2 n + 1)%Z with (Z.succ (Z.log2 n)) by lia. exact Hhi.
Qed.

Lemma ilog2_spec (q : Q) :
  0 < q -> 2 ^ Float.ilog2 q <= q /\ q < 2 ^ (Float.ilog2 q + 1).
Proof.
  intros Hq. unfold Float.ilog2. cbv zeta.
  assert (Hn : (0 < Qnum q)%Z).
  { destruct q as [n d]. unfold Qlt in Hq. cbn in Hq |- *. lia. }
  destruct (log2_bounds (Qnum q) Hn) as [HNlo HNhi].
  destruct (log2_bounds (Z.pos (Qden q)) eq_refl) as [HDlo HDhi].
  set (L := Z.log2 (Qnum q)) in *. set (M := Z.log2 (Z.pos (Qden q))) in *.
  pose proof (pow2_plus (L - M) M) as Hsplit.
  replace (L - M + M)%Z with L in Hsplit by lia.
  pose proof (pow2_pos (L - M)) as HX. pose proof (pow2_pos M) as HB.
  assert (Hdiv : q * inject_Z (Z.pos (Qden q)) == inject_Z (Qnum q)).
  { destruct q as [n d]. cbn [Qnum Qden]. rewrite (Qmake_Qdiv n d).
    field. discriminate. }
  set (N := inject_Z (Qnum q)) in *.
  set (D := inject_Z (Z.pos (Qden q))) in *.
  set (X := 2 ^ (L - M)) in *. set (B := 2 ^ M) in *.
  rewrite Hsplit in HNlo, HNhi.
  destruct (Qle_bool X q) eqn:Hcmp.
  - apply Qle_bool_iff in Hcmp. split; [exact Hcmp|].
    rewrite pow2_succ. fold X. nra.
  - assert (Hlt : q < X).
    { apply Qnot_le_lt. intros Hle. apply Qle_bool_iff in Hle. congruence. }
    replace (L - M - 1 + 1)%Z with (L - M)%Z by lia. fold X.
    split; [|exact Hlt].
    assert (Hhalf : X == 2 * 2 ^ (L - M - 1)).
    { unfold X. rewrite <- pow2_succ.
      replace (L - M - 1 + 1)%Z with (L - M)%Z by lia. reflexivity. }
    pose proof (pow2_pos (L - M - 1)). nra.
Qed.


Lemma scaled_bounds (q : Q) :
  0 < q ->
  2 ^ 52 <= q / 2 ^ Float.exponent q /\ q / 2 ^ Float.exponent q < 2 ^ 53.
Proof.
  intros Hq. destruct (ilog2_spec q Hq) as [Hlo Hhi].
  unfold Float.exponent. set (l := Float.ilog2 q) in *.
  pose proof (pow2_pos (l - 52)) as HP.
  pose proof (pow2_plus (l - 52) 52) as H52.
  replace (l - 52 + 52)%Z with l in H52 by lia.
  pose proof (pow2_plus (l - 52) 53) as H53.
  replace (l - 52 + 53)%Z with (l + 1)%Z in H53 by lia.
  rewrite H52 in Hlo. rewrite H53 in Hhi.
  set (P := 2 ^ (l - 52)) in *.
  assert (Hy : q / P * P == q) by (field; lra).
  set (y := q / P) in *.
  change (2 ^ 52) with 4503599627370496 in *.
  change (2 ^ 53) with 9007199254740992 in *.
  split; nra.
Qed.

Lemma significand_bounds (q : Q) :
  0 < q ->
  (4503599627370496 <= Float.significand q <= 9007199254740992)%Z.
Proof.
  intros Hq. destruct (scaled_bounds q Hq) as [Hlo Hhi].
  unfold Float.significand.
  change (2 ^ 52) with (inject_Z 4503599627370496) in Hlo.
  change (2 ^ 53) with (inject_Z 9007199254740992) in Hhi.
  apply round_half_even_mono in Hlo. apply Qlt_le_weak in Hhi.
  apply round_half_even_mono in Hhi.
  rewrite round_half_even_inject in Hlo, Hhi. lia.
Qed.

Lemma round_pos_error (q : Q) :
  0 < q -> q - q * Float.unit_roundoff <= Float.round_pos q /\ Float.round_pos q <= q + q * Float.unit_roundoff.
Proof.
  intros Hq. destruct (scaled_bounds q Hq) as [Hlo _].
  unfold Float.round_pos, Float.significand.
  pose proof (pow2_pos (Float.exponent q)) as HP.
  set (P := 2 ^ Float.exponent q) in *.
  assert (Hy : q / P * P == q) by (field; lra).
  set (y := q / P) in *.
  destruct (round_half_even_bounds y) as [Hm1 Hm2].
  set (m := inject_Z (Float.round_half_even y)) in *.
  change (2 ^ 52) with 4503599627370496 in Hlo. unfold Float.unit_roundoff.
  split; nra.
Qed.

Lemma ilog2_mono (q1 q2 : Q) :
  0 < q1 -> q1 <= q2 -> (Float.ilog2 q1 <= Float.ilog2 q2)%Z.
Proof.
  intros Hq1 Hle.
  destruct (ilog2_spec q1 Hq1) as [Hlo1 _].
  destruct (ilog2_spec q2) as [_ Hhi2]; [lra|].
  assert (Hlt : 2 ^ Float.ilog2 q1 < 2 ^ (Float.ilog2 q2 + 1)) by lra.
  apply Qpower_lt_compat_l_inv in Hlt; [lia | reflexivity].
Qed.

Lemma round_pos_mono (q1 q2 : Q) :
  0 < q1 -> q1 <= q2 -> Float.round_pos q1 <= Float.round_pos q2.
Proof.
  intros Hq1 Hle. assert (Hq2 : 0 < q2) by lra.
  pose proof (ilog2_mono q1 q2 Hq1 Hle) as Hlog.
  destruct (significand_bounds q1 Hq1) as [_ Hm1].
  destruct (significand_bounds q2 Hq2) as [Hm2 _].
  unfold Float.round_pos.
  apply Zle_lt_or_eq in Hlog as [Hlt|Heq].
  - (* a smaller binade *)
    assert (He : (Float.exponent q1 + 1 <= Float.exponent q2)%Z)
      by (unfold Float.exponent; lia).
    apply pow2_le in He. rewrite pow2_succ in He.
    pose proof (pow2_pos (Float.exponent q1)).
    pose proof (pow2_pos (Float.exponent q2)).
    rewrite Zle_Qle in Hm1, Hm2.
    set (m1 := inject_Z (Float.significand q1)) in *.
    set (m2 := inject_Z (Float.significand q2)) in *.
    change (inject_Z 9007199254740992) with 9007199254740992 in Hm1.
    change (inject_Z 4503599627370496) with 4503599627370496 in Hm2.
    nra.
  - (* the same binade *)
    assert (He : Float.exponent q1 = Float.exponent q2)
      by (unfold Float.exponent; lia).
    unfold Float.significand. rewrite He.
    pose proof (pow2_pos (Float.exponent q2)) as HP.
    set (P := 2 ^ Float.exponent q2) in *.
    assert (Hy : q1 / P <= q2 / P).
    { apply Qmult_le_compat_r; [exact Hle|].
      apply Qlt_le_weak, Qinv_lt_0_compat, HP. }
    apply round_half_even_mono in Hy. rewrite Zle_Qle in Hy.
    apply Qmult_le_compat_r; [exact Hy | lra].
Qed.



Lemma round53_pos (q : Q) : 0 < q -> Float.round53 q == Float.round_pos q.
Proof.
  intros Hq. unfold Float.round53. destruct q as [[|n|n] d]; cbn [Qnum].
  - discriminate Hq.
  - apply Qred_correct.
  - discriminate Hq.
Qed.

Lemma round53_zero (q : Q) : q == 0 -> Float.round53 q = 0.
Proof.
  intros Hq. unfold Float.round53. destruct q as [[|n|n] d]; cbn [Qnum];
    [reflexivity | discriminate Hq | discriminate Hq].
Qed.

Lemma round53_error (q : Q) :
  0 <= q ->
  q - q * Float.unit_roundoff <= Float.round53 q
  /\ Float.round53 q <= q + q * Float.unit_roundoff.
Proof.
  intros Hq. destruct (Qlt_le_dec 0 q) as [Hpos|Hzero].
  - rewrite (round53_pos q Hpos). apply round_pos_error, Hpos.
  - assert (Heq : q == 0) by lra. rewrite (round53_zero q Heq).
    unfold Float.unit_roundoff. split; lra.
Qed.

Lemma round53_mono (q1 q2 : Q) :
  0 <= q1 -> q1 <= q2 -> Float.round53 q1 <= Float.round53 q2.
Proof.
  intros Hq1 Hle. destruct (Qlt_le_dec 0 q1) as [Hpos|Hzero].
  - rewrite (round53_pos q1 Hpos), (round53_pos q2) by lra.
    apply round_pos_mono; assumption.
  - assert (Heq : q1 == 0) by lra. rewrite (round53_zero q1 Heq).
    destruct (round53_error q2) as [Hlo _]; [lra|].
    unfold Float.unit_roundoff in Hlo. lra.
Qed.

Lemma round53_nonneg (q : Q) : 0 <= q -> 0 <= Float.round53 q.
Proof. intros Hq. apply (round53_mono 0 q); [lra | exact Hq]. Qed.

(** ** The range of binary64 *)

Lemma round53_opp (q : Q) : Float.round53 (- q) == - Float.round53 q.
Proof.
  destruct q as [[|n|n] d].
  - reflexivity.
  - change (Float.round53 (- (Z.pos n # d)))
      with (Qred (- Float.round_pos (Z.pos n # d))).
    change (Float.round53 (Z.pos n # d))
      with (Qred (Float.round_pos (Z.pos n # d))).
    rewrite (Qred_correct (- _)), (Qred_correct (Float.round_pos _)).
    reflexivity.
  - change (Float.round53 (- (Z.neg n # d)))
      with (Qred (Float.round_pos (Z.pos n # d))).
    change (Float.round53 (Z.neg n # d))
      with (Qred (- Float.round_pos (Z.pos n # d))).
    rewrite (Qred_correct (- _)), (Qred_correct (Float.round_pos _)).
    rewrite Qopp_opp. reflexivity.
Qed.

Lemma round53_abs (q : Q) :
  Qabs q - Qabs q * Float.unit_roundoff <= Qabs (Float.round53 q)
  /\ Qabs (Float.round53 q) <= Qabs q + Qabs q * Float.unit_roundoff.
Proof.
  destruct (Qlt_le_dec q 0) as [Hneg|Hpos].
  - assert (Habs : Qabs (Float.round53 q) == Qabs (Float.round53 (- q))).
    { rewrite round53_opp. symmetry. apply Qabs_opp. }
    rewrite Habs. rewrite (Qabs_neg q) by lra.
    rewrite (Qabs_pos (Float.round53 (- q))) by (apply round53_nonneg; lra).
    apply round53_error. lra.
  - rewrite (Qabs_pos q) by exact Hpos.
    rewrite (Qabs_pos (Float.round53 q)) by (apply round53_nonneg, Hpos).
    apply round53_error, Hpos.
Qed.

(** Rounding moves a magnitude between 2^-k and 2^k by at most one binade. *)
Lemma round53_range (q : Q) (k : Z) :
  q == 0 \/ 2 ^ (- k) <= Qabs q <= 2 ^ k ->
  Float.round53 q == 0
  \/ 2 ^ (- (k + 1)) <= Qabs (Float.round53 q) <= 2 ^ (k + 1).
Proof.
  intros [Hzero|[Hlo Hhi]].
  - left. rewrite (round53_zero q Hzero). reflexivity.
  - right. destruct (round53_abs q) as [H1 H2].
    pose proof (pow2_succ k) as Hup.
    pose proof (pow2_succ (- (k + 1))) as Hdown.
    replace (- (k + 1) + 1)%Z with (- k)%Z in Hdown by lia.
    pose proof (pow2_pos (- (k + 1))) as Hpos.
    pose proof (pow2_pos k) as Hpos'.
    unfold Float.unit_roundoff in *. split; lra.
Qed.

Lemma range_in_range (x : Q) (k : Z) :
  (k <= 1022)%Z ->
  x == 0 \/ 2 ^ (- k) <= Qabs x <= 2 ^ k -> Float.in_range x.
Proof.
  intros Hk [Hzero|[Hlo Hhi]]; [left; exact Hzero | right].
  pose proof (pow2_le (-1022) (- k) ltac:(lia)) as H1.
  pose proof (pow2_le k 1022 Hk) as H2.
  assert (H3 : 2 ^ 1022 < 2 ^ 1024).
  { pose proof (pow2_plus 1022 2) as H. change (1022 + 2)%Z with 1024%Z in H.
    change (2 ^ 2) with 4 in H. pose proof (pow2_pos 1022). lra. }
  split; lra.
Qed.

(** The quotient of two integers below 2^k in magnitude. *)
Lemma quotient_range (a b k : Z) :
  (0 < Z.abs a < 2 ^ k)%Z -> (0 < b < 2 ^ k)%Z ->
  2 ^ (- k) <= Qabs (inject_Z a / inject_Z b) <= 2 ^ k.
Proof.
  intros [Ha1 Ha2] [Hb1 Hb2].
  assert (Hk : (0 <= k)%Z).
  { destruct (Z_lt_le_dec k 0) as [Hneg|]; [|assumption].
    rewrite Z.pow_neg_r in Hb2 by exact Hneg. lia. }
  assert (HB : 1 <= inject_Z b /\ inject_Z b <= 2 ^ k).
  { rewrite <- pow2_inject by exact Hk. change 1 with (inject_Z 1).
    rewrite <- !Zle_Qle. lia. }
  assert (HA : 1 <= inject_Z (Z.abs a) /\ inject_Z (Z.abs a) <= 2 ^ k).
  { rewrite <- pow2_inject by exact Hk. change 1 with (inject_Z 1).
    rewrite <- !Zle_Qle. lia. }
  assert (Habs : Qabs (inject_Z a / inject_Z b)
                 == inject_Z (Z.abs a) / inject_Z b).
  { unfold Qdiv. rewrite Qabs_Qmult.
    rewrite (Qabs_pos (/ inject_Z b))
      by (apply Qlt_le_weak, Qinv_lt_0_compat; lra).
    reflexivity. }
  rewrite Habs.
  pose proof (pow2_plus (- k) k) as Hinv.
  replace (- k + k)%Z with 0%Z in Hinv by lia. change (2 ^ 0) with 1 in Hinv.
  pose proof (pow2_pos k) as Hpos. pose proof (pow2_pos (- k)) as Hpos'.
  split.
  - apply Qle_shift_div_l; [lra|]. nra.
  - apply Qle_shift_div_r; [lra|]. nra.
Qed.

(** A quotient of two such integers rounds to a float without overflow and
    without underflow. *)
Lemma int_truediv_in_range (a b : Z) :
  (Z.abs a < 2 ^ 1001)%Z -> (0 < b < 2 ^ 1001)%Z ->
  exists x, Float.int_truediv a b = Ok x /\ Float.in_range x
    /\ (x == 0 \/ 2 ^ (-1002) <= Qabs x <= 2 ^ 1002).
Proof.
  intros Ha Hb. unfold Float.int_truediv.
  destruct (Z.eqb_spec b 0%Z) as [->|_]; [lia|].
  eexists. split; [reflexivity|].
  assert (Hrange : Float.round53 (inject_Z a / inject_Z b) == 0
                   \/ 2 ^ (-1002) <= Qabs (Float.round53 (inject_Z a / inject_Z b))
                      <= 2 ^ 1002).
  { apply (round53_range _ 1001).
    destruct (Z.eq_dec a 0%Z) as [->|Hne].
    - left. unfold Qdiv. rewrite Qmult_0_l. reflexivity.
    - right. apply quotient_range; [lia | exact Hb]. }
  split; [|exact Hrange]. apply (range_in_range _ 1002); [lia | exact Hrange].
Qed.

(** So does the conversion of an integer below 2^1001 in magnitude. *)
Lemma of_int_in_range (n : Z) :
  (Z.abs n < 2 ^ 1001)%Z -> Float.in_range (Float.of_int n).
Proof.
  intros Hn. unfold Float.of_int.
  apply (range_in_range _ 1002); [lia|]. apply (round53_range _ 1001).
  destruct (Z.eq_dec n 0%Z) as [->|Hne]; [left; reflexivity | right].
  change (Qabs (inject_Z n)) with (inject_Z (Z.abs n)).
  pose proof (pow2_le (-1001) 0 ltac:(lia)) as Hone.
  change (2 ^ 0) with 1 in Hone.
  split.
  - apply Qle_trans with 1; [exact Hone|]. change 1 with (inject_Z 1).
    rewrite <- Zle_Qle. lia.
  - rewrite <- (pow2_inject 1001) by lia. rewrite <- Zle_Qle. lia.
Qed.

End FloatFacts.

(** ** The percentages *)

Section Percentages.
#[local] Open Scope Q_scope.

Lemma of_int_100 : Float.of_int 100 = 100.
Proof. reflexivity. Qed.

Lemma quotient_nonneg (C T : Z) :
  (0 <= C)%Z -> (0 < T)%Z -> 0 <= inject_Z C / inject_Z T.
Proof.
  intros HC HT. apply Qle_shift_div_l.
  - change 0 with (inject_Z 0). rewrite <- Zlt_Qlt. exact HT.
  - rewrite Qmult_0_l. change 0 with (inject_Z 0). rewrite <- Zle_Qle.
    exact HC.
Qed.

Lemma quotient_mono (C C' T : Z) :
  (C <= C')%Z -> (0 < T)%Z ->
  inject_Z C / inject_Z T <= inject_Z C' / inject_Z T.
Proof.
  intros HC HT. apply Qmult_le_compat_r.
  - rewrite <- Zle_Qle. exact HC.
  - apply Qlt_le_weak, Qinv_lt_0_compat. change 0 with (inject_Z 0).
    rewrite <- Zlt_Qlt. exact HT.
Qed.

Lemma percentage_value (C T : Z) :
  (0 < T)%Z ->
  percentage C T
  = Ok (Float.round53 (Float.round53 (inject_Z C / inject_Z T) * 100)).
Proof.
  intros HT. rewrite percentage_nonzero by lia.
  unfold Float.mul. rewrite of_int_100. reflexivity.
Qed.

Lemma percentage_mono (C C' T : Z) (p p' : Q) :
  (0 < T)%Z -> (0 <= C)%Z -> (C <= C')%Z ->
  percentage C T = Ok p -> percentage C' T = Ok p' -> p <= p'.
Proof.
  intros HT HC HCC'. rewrite !percentage_value by exact HT.
  intros [= <-] [= <-].
  pose proof (quotient_nonneg C T HC HT) as Hx.
  pose proof (quotient_mono C C' T HCC' HT) as Hxx'.
  pose proof (round53_nonneg _ Hx) as Hr.
  pose proof (round53_mono _ _ Hx Hxx') as Hrr'.
  apply round53_mono; lra.
Qed.

(** Within the bound the quotient and the percentage are floats: neither
    an overflow nor an underflow occurs on the way. *)
Lemma percentage_in_range (C T : Z) :
  (0 < T < 2 ^ 1000)%Z -> (0 <= C < 2 ^ 1000)%Z ->
  Float.in_range (Float.round53 (inject_Z C / inject_Z T))
  /\ Float.in_range
       (Float.round53 (Float.round53 (inject_Z C / inject_Z T) * 100)).
Proof.
  intros HT HC.
  assert (Hq : Float.round53 (inject_Z C / inject_Z T) == 0
               \/ 2 ^ (-1001)
                  <= Qabs (Float.round53 (inject_Z C / inject_Z T))
                  <= 2 ^ 1001).
  { apply (round53_range _ 1000).
    destruct (Z.eq_dec C 0%Z) as [->|Hne].
    - left. unfold Qdiv. rewrite Qmult_0_l. reflexivity.
    - right. apply quotient_range; [lia | exact HT]. }
  split; [apply (range_in_range _ 1001); [lia | exact Hq]|].
  apply (range_in_range _ 1009); [lia|]. apply (round53_range _ 1008).
  set (r := Float.round53 (inject_Z C / inject_Z T)) in *.
  destruct Hq as [Hzero|[Hlo Hhi]].
  - left. rewrite Hzero. ring.
  - right. rewrite Qabs_Qmult. change (Qabs 100) with 100.
    change (Z.opp 1008) with (-1008)%Z.
    pose proof (pow2_plus 1001 7) as Hup.
    change (1001 + 7)%Z with 1008%Z in Hup. change (2 ^ 7) with 128 in Hup.
    pose proof (pow2_le (-1008) (-1001) ltac:(lia)) as Hdown.
    pose proof (pow2_pos (-1001)) as Hpos. pose proof (pow2_pos 1001) as Hpos'.
    split; lra.
Qed.

(** C3, as amended.  For every threshold T > 0 and count C >= 0, both below
    2^1000, the percentage is computed: it is the float product by 100 of
    the float quotient C / T, neither of which overflows or underflows, so
    it is 100 * C / T up to two roundings (a relative error of at most
    3 * 2^-53), and for a fixed T it is monotonic non-decreasing in C. *)
Theorem percentage_rounded_and_monotone (C C' T : Z) :
  (0 < T < 2 ^ 1000)%Z -> (0 <= C)%Z -> (C <= C' < 2 ^ 1000)%Z ->
  exists p p',
    percentage C T = Ok p /\ percentage C' T = Ok p'
    /\ p = Float.round53 (Float.round53 (inject_Z C / inject_Z T) * 100)
    /\ Float.in_range (Float.round53 (inject_Z C / inject_Z T))
    /\ Float.in_range p /\ Float.in_range p'
    /\ Qabs (p - 100 * inject_Z C / inject_Z T)
       <= 100 * inject_Z C / inject_Z T * (3 # 9007199254740992)
    /\ p <= p'.
Proof.
  intros HT HC HCC'. destruct HT as [HT HTmax].
  exists (Float.round53 (Float.round53 (inject_Z C / inject_Z T) * 100)),
    (Float.round53 (Float.round53 (inject_Z C' / inject_Z T) * 100)).
  split; [apply percentage_value, HT|].
  split; [apply percentage_value, HT|]. split; [reflexivity|].
  split; [apply percentage_in_range; lia|].
  split; [apply percentage_in_range; lia|].
  split; [apply percentage_in_range; lia|]. split.
  - pose proof (quotient_nonneg C T HC HT) as Hx.
    assert (Hassoc : 100 * inject_Z C / inject_Z T
                     == 100 * (inject_Z C / inject_Z T))
      by (unfold Qdiv; ring).
    rewrite Hassoc. clear Hassoc.
    set (x := inject_Z C / inject_Z T) in *.
    destruct (round53_error x Hx) as [H1 H2].
    pose proof (round53_nonneg x Hx) as Hr.
    set (r := Float.round53 x) in *.
    destruct (round53_error (r * 100)) as [H3 H4]; [lra|].
    set (p := Float.round53 (r * 100)) in *.
    unfold Float.unit_roundoff in *.
    apply Qabs_Qle_condition. split; lra.
  - eapply percentage_mono; eauto using percentage_value. lia.
Qed.

Lemma percentage_rounded_and_monotone_witness :
  exists p p',
    percentage 7 100 = Ok p /\ percentage 8 100 = Ok p' /\ p <= p'.
Proof.
  destruct (percentage_rounded_and_monotone 7 8 100)
    as (p & p' & Hp & Hp' & _ & _ & _ & _ & _ & Hle);
    [split; reflexivity | discriminate | split; [discriminate | reflexivity] |].
  exists p, p'. split; [exact Hp|]. split; [exact Hp' | exact Hle].
Defined.

(** The claim C3 as stated fails: seven tickets against the threshold 100
    give 7.000000000000000888..., the float next above 7, which is not
    100 * 7 / 100; the hardware floats of the kernel agree. *)
Lemma percentage_7_of_100_is_not_7 :
  percentage 7 100 = Ok (7881299347898369 # 1125899906842624)
  /\ ~ (7881299347898369 # 1125899906842624 == 100 * 7 / 100)
  /\ Float.binary64_value (PrimFloat.mul (PrimFloat.div 7 100) 100)
     = Some (7881299347898369 # 1125899906842624)
  /\ Float.binary64_value (PrimFloat.div (PrimFloat.mul 100 7) 100)
     = Some 7.
Proof.
  split; [vm_compute; reflexivity|].
  split; [intros H; vm_compute in H; discriminate H|].
  split; vm_compute; reflexivity.
Qed.

End Percentages.

(** On the six thresholds and every count up to 500 the model of the
    percentage is the value that binary64 hardware computes. *)
Lemma agrees_with_binary64 :
  forallb (λ threshold,
             forallb (λ bf_count, agrees_with_hardware (Z.of_nat bf_count) threshold)
               (seq 0 501))
    bf_thresholds
  = true.
Proof. vm_compute. reflexivity. Qed.

Section Comparisons.
#[local] Open Scope Q_scope.

Lemma comparisons_from_boundaries (T C h : Z) (p b1 b2 b3 b4 : Q) :
  (0 < T)%Z -> (0 <= C)%Z -> (2 * (h - 1) < T <= 2 * h)%Z ->
  percentage C T = Ok p ->
  percentage T T = Ok b1 -> b1 <= 100 ->
  percentage (T + 1) T = Ok b2 -> 100 < b2 ->
  percentage (h - 1) T = Ok b3 -> b3 < 50 ->
  percentage h T = Ok b4 -> 50 <= b4 ->
  (100 < p <-> (T < C)%Z) /\ (p < 50 <-> (2 * C < T)%Z).
Proof.
  intros HT HC Hh Hp Hb1 Hle1 Hb2 Hlt2 Hb3 Hlt3 Hb4 Hle4. split.
  - destruct (Z_lt_le_dec T C) as [Hlt|Hle].
    + pose proof (percentage_mono (T + 1) C T b2 p HT ltac:(lia) ltac:(lia)
                    Hb2 Hp).
      split; [intros _; exact Hlt | intros _; lra].
    + pose proof (percentage_mono C T T p b1 HT HC Hle Hp Hb1).
      split; [intros Hp100; exfalso; lra | intros Hlt; lia].
  - destruct (Z_lt_le_dec (2 * C) T) as [Hlt|Hle].
    + pose proof (percentage_mono C (h - 1) T p b3 HT HC ltac:(lia) Hp Hb3).
      split; [intros _; exact Hlt | intros _; lra].
    + pose proof (percentage_mono h C T b4 p HT ltac:(lia) ltac:(lia) Hb4 Hp).
      split; [intros Hp50; exfalso; lra | intros Hlt; lia].
Qed.

(** On the thresholds of the table the two comparisons of the verdict
    decide exactly what they decide in exact arithmetic: a percentage is
    above 100 when the count exceeds the threshold, and below 50 when twice
    the count is below the threshold. *)
Lemma verdict_comparisons_exact (T C : Z) (p : Q) :
  T ∈ bf_thresholds -> (0 <= C)%Z -> percentage C T = Ok p ->
  (100 < p <-> (T < C)%Z) /\ (p < 50 <-> (2 * C < T)%Z).
Proof.
  intros HT HC Hp. unfold bf_thresholds in HT.
  repeat (apply elem_of_cons in HT as [->|HT]);
    [ eapply (comparisons_from_boundaries _ C 15)
    | eapply (comparisons_from_boundaries _ C 50)
    | eapply (comparisons_from_boundaries _ C 15)
    | eapply (comparisons_from_boundaries _ C 4)
    | eapply (comparisons_from_boundaries _ C 10)
    | eapply (comparisons_from_boundaries _ C 5)
    | inversion HT ];
    try exact Hp; try exact HC; try (vm_compute; reflexivity);
    try (vm_compute; split; [reflexivity | discriminate]);
    try (vm_compute; discriminate).
Qed.

End Comparisons.

(** * Further properties of the code *)

(** ** The verdict composes *)

(** X1. The verdict of two lists of percentages taken together is the worse
    of their verdicts; in particular it does not depend on the order in
    which the percentages were collected, and one more percentage never
    improves it. *)
Theorem verdict_app (l1 l2 : list Q) :
  verdict (l1 ++ l2) = worst (verdict l1) (verdict l2)
  ∧ verdict (l1 ++ l2) = verdict (l2 ++ l1)
  ∧ (verdict l1 = RED → verdict (l1 ++ l2) = RED)
  ∧ (verdict (l1 ++ l2) = GREEN → verdict l1 = GREEN ∧ verdict l2 = GREEN).
Proof.
  assert (Happ : ∀ a b, verdict (a ++ b) = worst (verdict a) (verdict b)).
  { intros a b. unfold verdict. rewrite existsb_app, forallb_app.
    destruct (existsb _ a), (existsb _ b), (forallb _ a), (forallb _ b);
      reflexivity. }
  split; [apply Happ|]. split; [|split].
  - rewrite !Happ. destruct (verdict l1), (verdict l2); reflexivity.
  - intros H1. rewrite Happ, H1. reflexivity.
  - rewrite Happ. destruct (verdict l1), (verdict l2); try discriminate.
    intros _. split; reflexivity.
Qed.

(** ** The verdict in terms of the counts *)

Lemma Forall2_Exists_iff {A B} (R : A → B → Prop) (P : A → Prop)
    (Q : B → Prop) (l : list A) (k : list B) :
  Forall2 R l k → (∀ x y, R x y → (P x ↔ Q y)) → (Exists P l ↔ Exists Q k).
Proof.
  intros Hall HPQ. induction Hall as [|x y l k HR _ IH].
  - split; inversion 1.
  - rewrite !Exists_cons, IH, (HPQ x y HR). reflexivity.
Qed.

Lemma Forall2_Forall_iff {A B} (R : A → B → Prop) (P : A → Prop)
    (Q : B → Prop) (l : list A) (k : list B) :
  Forall2 R l k → (∀ x y, R x y → (P x ↔ Q y)) → (Forall P l ↔ Forall Q k).
Proof.
  intros Hall HPQ. induction Hall as [|x y l k HR _ IH].
  - split; constructor.
  - rewrite !Forall_cons, IH, (HPQ x y HR). reflexivity.
Qed.

Lemma bf_counts_with_thresholds (r : BFsReport.t) :
  Forall (λ ct : Z * Z, ct.2 ∈ bf_thresholds ∧ 0 ≤ ct.1)
    (zip (bf_counts r) bf_thresholds).
Proof.
  unfold bf_counts, bf_thresholds.
  destruct (max_per_team r) as [[max_hot max_cold] max_perf].
  cbn [zip zip_with].
  repeat (constructor; [split; [cbn [snd]; set_solver | cbn [fst]; lia]|]).
  constructor.
Qed.

(** X2. The verdict of a completed run, read on the integer counts: it is
    RED exactly when one of the six counts exceeds its threshold, GREEN
    exactly when twice each count is below its threshold, and YELLOW
    otherwise.  The rounding of the float percentages never changes it. *)
Theorem run_verdict_by_counts
    (jira_service : JiraService) (evg_service : EvergreenService) (utcnow : Z)
    (as_str_table : BFsReport.t → string) (EVERGREEN_PROJECT : string)
    (repo branch : string) (notify : bool) (out : Outcome) :
  let counts_and_thresholds :=
    zip (bf_counts (_make_bfs_report jira_service EVERGREEN_PROJECT
                      (get_evg_project_info evg_service repo branch)))
      bf_thresholds in
  let over := Exists (λ ct : Z * Z, ct.2 < ct.1) counts_and_thresholds in
  let under := Forall (λ ct : Z * Z, 2 * ct.1 < ct.2) counts_and_thresholds in
  evaluate_build_redness jira_service evg_service utcnow as_str_table
    EVERGREEN_PROJECT repo branch notify = Ok out →
  (verdict (threshold_percentages out) = RED ↔ over)
  ∧ (verdict (threshold_percentages out) = GREEN ↔ ¬ over ∧ under)
  ∧ (verdict (threshold_percentages out) = YELLOW ↔ ¬ over ∧ ¬ under).
Proof.
  intros cts over under Hrun.
  apply evaluate_build_redness_inv in Hrun
    as (names & bf_msg & wreport & wf_msg & _ & Hbf & _).
  destruct (_get_bf_counts_status_percentages as_str_table
              (_make_bfs_report jira_service EVERGREEN_PROJECT
                 (get_evg_project_info evg_service repo branch)))
    as (msg & ps & Hps & Hall).
  rewrite Hbf in Hps. injection Hps as <- <-. fold cts in Hall.
  set (ps := threshold_percentages out) in *.
  assert (Hside : Forall2
    (λ (ct : Z * Z) p, ct.2 ∈ bf_thresholds ∧ 0 ≤ ct.1
                       ∧ percentage ct.1 ct.2 = Ok p) cts ps).
  { pose proof (bf_counts_with_thresholds
                  (_make_bfs_report jira_service EVERGREEN_PROJECT
                     (get_evg_project_info evg_service repo branch)))
      as Hcts.
    fold cts in Hcts. clear Hbf. induction Hall as [|ct p cts' ps' Hp _ IH].
    - constructor.
    - apply Forall_cons in Hcts as [[HT HC] Hcts].
      constructor; [auto | apply IH, Hcts]. }
  assert (Hover : existsb (λ p, Float.gtb p 100) ps = true ↔ over).
  { rewrite (existsb_Exists _ (λ p, 100 < p)%Q) by (intros; apply gtb_iff).
    symmetry. eapply Forall2_Exists_iff; [exact Hside|].
    intros ct p (HT & HC & Hp). cbn beta.
    destruct (verdict_comparisons_exact ct.2 ct.1 p HT HC Hp) as [H100 _].
    symmetry. exact H100. }
  assert (Hunder : forallb (λ p, Float.ltb p 50) ps = true ↔ under).
  { rewrite (forallb_Forall _ (λ p, p < 50)%Q) by (intros; apply ltb_iff).
    symmetry. eapply Forall2_Forall_iff; [exact Hside|].
    intros ct p (HT & HC & Hp). cbn beta.
    destruct (verdict_comparisons_exact ct.2 ct.1 p HT HC Hp) as [_ H50].
    symmetry. exact H50. }
  unfold verdict.
  destruct (existsb _ ps).
  - assert over by (apply Hover; reflexivity).
    repeat split; try discriminate; tauto.
  - assert (¬ over) by (rewrite <- Hover; discriminate).
    destruct (forallb _ ps).
    + assert under by (apply Hunder; reflexivity).
      repeat split; try discriminate; tauto.
    + assert (¬ under) by (rewrite <- Hunder; discriminate).
      repeat split; try discriminate; tauto.
Qed.

Lemma run_verdict_by_counts_witness :
  ∃ out,
    evaluate_build_redness (sample_jira 31)
      (sample_evg ["mongodb-mongo-master"] 0) sample_now sample_table
      "Evergreen Project" "10gen/mongo" "master" false = Ok out
    ∧ verdict (threshold_percentages out) = RED.
Proof.
  destruct (evaluate_build_redness (sample_jira 31)
              (sample_evg ["mongodb-mongo-master"] 0) sample_now sample_table
              "Evergreen Project" "10gen/mongo" "master" false)
    as [out|e] eqn:Hrun; [|vm_compute in Hrun; discriminate Hrun].
  exists out. split; [reflexivity|].
  apply (run_verdict_by_counts _ _ _ _ _ _ _ _ out Hrun).
  vm_compute. left. reflexivity.
Defined.

(** ** The log and the notification *)

Lemma string_app_assoc (a b c : string) : (a +:+ b) +:+ c = a +:+ (b +:+ c).
Proof.
  induction a as [|x a IH]; [reflexivity|].
  change (String x ((a +:+ b) +:+ c) = String x (a +:+ (b +:+ c))).
  f_equal. exact IH.
Qed.

Lemma string_app_nil_r (a : string) : a +:+ EmptyString = a.
Proof.
  induction a as [|x a IH]; [reflexivity|].
  change (String x (a +:+ EmptyString) = String x a). f_equal. exact IH.
Qed.


Lemma rstrip_cons (x : Ascii.ascii) (s : string) :
  Py.rstrip (String x s)
  = match Py.rstrip s with
    | EmptyString =>
        if Py.is_space x then EmptyString else String x EmptyString
    | String y r => String x (String y r)
    end.
Proof. reflexivity. Qed.

Lemma rstrip_app (a b : string) :
  Py.rstrip b ≠ EmptyString → Py.rstrip (a +:+ b) = a +:+ Py.rstrip b.
Proof.
  intros Hb. induction a as [|x a IH]; [reflexivity|].
  change (String x a +:+ b) with (String x (a +:+ b)).
  rewrite rstrip_cons, IH.
  change (String x a +:+ Py.rstrip b) with (String x (a +:+ Py.rstrip b)).
  destruct (a +:+ Py.rstrip b) eqn:Happ; [|reflexivity].
  destruct a; [cbn in Happ; contradiction | discriminate Happ].
Qed.

Lemma action_line_rstrip (v : Verdict) :
  ∃ text, action_line v = text +:+ Py.nl
    ∧ Py.rstrip (action_line v) = text ∧ text ≠ EmptyString.
Proof.
  destruct v; eexists; (split; [|split]);
    [ | vm_compute; reflexivity | discriminate
    | | vm_compute; reflexivity | discriminate
    | | vm_compute; reflexivity | discriminate ]; reflexivity.
Qed.






(** X5. The notify flag changes nothing but the notification and the last
    event of the log: the run with the flag cleared computes the same
    percentages and status message and sends nothing, and the log of the run
    is that of the quiet run, followed, when the flag is set, by the one
    event that announces the notification; with the flag set, the text sent
    to the channel is the status message without its first and last
    character, which are newlines. *)
Theorem notification_is_the_stripped_message
    (jira_service : JiraService) (evg_service : EvergreenService) (utcnow : Z)
    (as_str_table : BFsReport.t → string) (EVERGREEN_PROJECT : string)
    (repo branch : string) (notify : bool) (out : Outcome) :
  evaluate_build_redness jira_service evg_service utcnow as_str_table
    EVERGREEN_PROJECT repo branch notify = Ok out →
  (∃ sent, status_message out = Py.nl +:+ sent +:+ Py.nl
     ∧ slack_message out = if notify then Some sent else None)
  ∧ ∃ quiet,
      evaluate_build_redness jira_service evg_service utcnow as_str_table
        EVERGREEN_PROJECT repo branch false = Ok quiet
      ∧ slack_message quiet = None
      ∧ threshold_percentages quiet = threshold_percentages out
      ∧ status_message quiet = status_message out
      ∧ log out
        = log quiet
          ++ (if notify
              then [ {| event := "Notifying slack channel with results";
                        kwargs :=
                          [("slack_channel",
                            LogStr "#10gen-mongo-code-lockdown")] |} ]
              else []).
Proof.
  intros Hrun. pose proof Hrun as Hinv.
  apply evaluate_build_redness_inv in Hinv
    as (names & _ & _ & _ & Hnames & _).
  destruct (evaluate_build_redness_ok jira_service evg_service utcnow
              as_str_table EVERGREEN_PROJECT repo branch notify names Hnames)
    as (out' & bf_msg & wreport & wf_msg & Hrun' & Hbf & Hrep & Hwf & Hmsg
        & Hlines & Hslack).
  rewrite Hrun in Hrun'. injection Hrun' as <-.
  split.
  - destruct (action_line_rstrip (verdict (threshold_percentages out)))
      as (text & Haction & Hstrip & Hne).
    set (rest := "[STATUS]` '" +:+ repo +:+ "' repo '" +:+ branch
                 +:+ "' branch" +:+ Py.nl +:+ bf_msg +:+ Py.nl +:+ Py.nl
                 +:+ wf_msg +:+ Py.nl +:+ Py.nl).
    assert (Hshape : status_message out
                     = Py.nl +:+ String (Ascii.ascii_of_nat 96) (rest +:+ action_line
                           (verdict (threshold_percentages out)))).
    { rewrite Hmsg. unfold rest. rewrite !string_app_assoc. reflexivity. }
    exists (String (Ascii.ascii_of_nat 96) (rest +:+ text)). split.
    + rewrite Hshape, Haction.
      change (String (Ascii.ascii_of_nat 96) (rest +:+ text) +:+ Py.nl)
        with (String (Ascii.ascii_of_nat 96) ((rest +:+ text) +:+ Py.nl)).
      rewrite string_app_assoc. reflexivity.
    + rewrite Hslack. destruct notify; [|reflexivity]. f_equal.
      rewrite Hshape. unfold Py.strip.
      change (Py.lstrip (Py.nl +:+ String (Ascii.ascii_of_nat 96) (rest +:+ action_line
                (verdict (threshold_percentages out)))))
        with (String (Ascii.ascii_of_nat 96) (rest +:+ action_line
                (verdict (threshold_percentages out)))).
      change (String (Ascii.ascii_of_nat 96) (rest +:+ action_line
                (verdict (threshold_percentages out))))
        with ((String (Ascii.ascii_of_nat 96) rest) +:+ action_line
                (verdict (threshold_percentages out))).
      rewrite rstrip_app by (rewrite Hstrip; exact Hne).
      rewrite Hstrip. reflexivity.
  - destruct (evaluate_build_redness_ok jira_service evg_service utcnow
                as_str_table EVERGREEN_PROJECT repo branch false names Hnames)
      as (quiet & bf_msg' & wreport' & wf_msg' & Hrunq & Hbfq & Hrepq & Hwfq
          & Hmsgq & Hlinesq & Hslackq).
    exists quiet. split; [exact Hrunq|]. split; [exact Hslackq|].
    rewrite Hbf in Hbfq. injection Hbfq as -> Hps.
    rewrite Hrep in Hrepq. apply Ok_inj in Hrepq. subst wreport'.
    rewrite Hwf in Hwfq. injection Hwfq as ->.
    split; [symmetry; exact Hps|].
    assert (Hsame : status_message quiet = status_message out)
      by (rewrite Hmsgq, Hmsg, <- Hps; reflexivity).
    split; [exact Hsame|].
    destruct (evaluate_build_redness_log _ _ _ _ _ _ _ _ _ Hrun)
      as (names1 & report1 & Hnames1 & Hrep1 & _ & Hlog1).
    destruct (evaluate_build_redness_log _ _ _ _ _ _ _ _ _ Hrunq)
      as (names2 & report2 & Hnames2 & Hrep2 & _ & Hlog2).
    rewrite Hnames in Hnames1, Hnames2.
    injection Hnames1 as <-. injection Hnames2 as <-.
    rewrite Hrep in Hrep1, Hrep2.
    apply Ok_inj in Hrep1, Hrep2. subst report1 report2.
    rewrite Hlog1, Hlog2, Hlines, Hlinesq, Hsame.
    rewrite app_nil_r, <- !app_assoc. reflexivity.
Qed.

Lemma notification_is_the_stripped_message_witness :
  ∃ out sent,
    evaluate_build_redness (sample_jira 4)
      (sample_evg ["mongodb-mongo-master"] 3) sample_now sample_table
      "Evergreen Project" "10gen/mongo" "master" true = Ok out
    ∧ status_message out = Py.nl +:+ sent +:+ Py.nl
    ∧ slack_message out = Some sent.
Proof.
  destruct (evaluate_build_redness (sample_jira 4)
              (sample_evg ["mongodb-mongo-master"] 3) sample_now sample_table
              "Evergreen Project" "10gen/mongo" "master" true)
    as [out|e] eqn:Hrun; [|vm_compute in Hrun; discriminate Hrun].
  destruct (notification_is_the_stripped_message _ _ _ _ _ _ _ _ out Hrun)
    as [(sent & Hmsg & Hslack) _].
  exists out, sent. split; [reflexivity|]. split; [exact Hmsg | exact Hslack].
Defined.


(** ** The loop over the set of teams *)

Lemma running_max_swap (count : string → nat) (x y : string)
    (teams : list string) (start : nat) :
  running_max count (x :: y :: teams) start
  = running_max count (y :: x :: teams) start.
Proof.
  unfold running_max. cbn [fold_left]. f_equal.
  destruct (Nat.ltb_spec start (count x)), (Nat.ltb_spec start (count y));
    repeat match goal with
    | |- context [(?a <? ?b)%nat] => destruct (Nat.ltb_spec a b)
    end; lia.
Qed.

Lemma running_max_Permutation (count : string → nat)
    (order1 order2 : list string) (start : nat) :
  order1 ≡ₚ order2 →
  running_max count order1 start = running_max count order2 start.
Proof.
  intros Hperm. revert start.
  induction Hperm as [|x l l' _ IH|x y l|l l' l'' _ IH1 _ IH2]; intros start.
  - reflexivity.
  - unfold running_max in *. cbn [fold_left]. apply IH.
  - symmetry. apply running_max_swap.
  - rewrite IH1. apply IH2.
Qed.

(** X6. The three maxima per team do not depend on the order in which the
    set of teams is iterated: any two orders of the same teams give the
    same figures, so the figures of [_get_bf_counts_status] are those of
    any iteration order of [all_assigned_teams]. *)
Theorem max_per_team_order_independent (bfs_report : BFsReport.t)
    (order1 order2 : list string) :
  order1 ≡ₚ order2 →
  max_per_team_over bfs_report order1 = max_per_team_over bfs_report order2.
Proof.
  intros Hperm. unfold max_per_team_over. rewrite !per_team_fold.
  rewrite !(running_max_Permutation _ order1 order2 0 Hperm). reflexivity.
Qed.

Lemma max_per_team_order_independent_witness :
  let r := {| BFsReport.all_assigned_teams := {[ "query"; "storage" ]};
              BFsReport.bfs :=
                [("storage", CORRECTNESS, HOT); ("query", CORRECTNESS, COLD);
                 ("storage", CORRECTNESS, HOT); ("query", PERFORMANCE, NONE)]
           |} in
  max_per_team_over r ["query"; "storage"]
  = max_per_team_over r ["storage"; "query"]
  ∧ max_per_team_over r ["storage"; "query"] = (2, 1, 1)%nat.
Proof.
  intros r. split; [|reflexivity].
  apply (max_per_team_order_independent r ["query"; "storage"]
           ["storage"; "query"]).
  apply perm_swap.
Defined.

(** ** The waterfall report on any list of names *)

Lemma length_flat_map_const {A B} (f : A → list B) (l : list A) (n : nat) :
  (∀ x, length (f x) = n) → length (flat_map f l) = (length l * n)%nat.
Proof.
  intros Hf. induction l as [|x l IH]; [reflexivity|].
  cbn [flat_map length]. rewrite length_app, Hf, IH. lia.
Qed.

(** X7. On every list of project names, with or without repetitions,
    [_make_waterfall_report] returns: its lookups by project never fail.
    The keys of the report are the listed names, each once; a name listed k
    times has 14 * k tallies, all of that project, so no project is left
    without tallies. *)
Theorem waterfall_report_on_any_names
    (evg_service : EvergreenService) (evg_project_names : list string)
    (window_end : Z) :
  ∃ report,
    _make_waterfall_report evg_service evg_project_names window_end
    = Ok report
    ∧ NoDup (Dict.keys report)
    ∧ (∀ name, name ∈ Dict.keys report ↔ name ∈ evg_project_names)
    ∧ ∀ name tallies,
        (name, tallies) ∈ report →
        length tallies
        = (14 * length (filter (λ n, n = name) evg_project_names))%nat
        ∧ tallies ≠ []
        ∧ Forall (λ t, project t = name) tallies.
Proof.
  eexists. split; [apply _make_waterfall_report_spec|].
  destruct (from_keys_spec evg_project_names (@nil TaskStatusCounts))
    as (Hnd & _ & Hkeys & _).
  split; [rewrite (Dict_keys_map_snd (λ kv, flat_map _ _)); exact Hnd|].
  split; [intros name; rewrite (Dict_keys_map_snd (λ kv, flat_map _ _));
          apply Hkeys|].
  intros name tallies Hin.
  apply list_elem_of_In, in_map_iff in Hin.
  destruct Hin as ([k vs] & Heq & Hin). cbn [fst snd] in Heq.
  apply pair_equal_spec in Heq as [-> <-].
  assert (Hname : name ∈ evg_project_names).
  { apply Hkeys. unfold Dict.keys. apply list_elem_of_In, in_map_iff.
    exists (name, vs). split; [reflexivity | exact Hin]. }
  match goal with |- length ?t = _ ∧ _ => set (ts := t) end.
  assert (Hlen : length ts
    = (14 * length (filter (λ n, n = name) evg_project_names))%nat).
  { unfold ts.
    rewrite (length_flat_map_const _ _
               (length (filter (λ n, n = name) evg_project_names)))
      by (intros day; apply length_map).
    rewrite length_seq. reflexivity. }
  split; [exact Hlen|]. split.
  - intros Hnil. rewrite Hnil in Hlen. cbn [length] in Hlen.
    destruct (filter (λ n, n = name) evg_project_names) eqn:Hfilter.
    + apply (filter_nil_not_elem_of _ _ name Hfilter); auto.
    + cbn [length] in Hlen. lia.
  - apply Forall_forall. intros t Ht. unfold ts in Ht.
    apply list_elem_of_In, in_flat_map in Ht. destruct Ht as (day & _ & Ht).
    apply in_map_iff in Ht. destruct Ht as (n & <- & Hn).
    apply list_elem_of_In, list_elem_of_filter in Hn as [-> _].
    rewrite project_status_of_sum. apply sum_of_project_project.
Qed.

(** ** The order of the days does not matter *)

Lemma median_Permutation (data data' : list Z) :
  data ≡ₚ data' → Py.median data = Py.median data'.
Proof.
  intros Hperm. unfold Py.median.
  assert (Hsort : merge_sort Z.le data = merge_sort Z.le data').
  { apply (Sorted_unique Z.le).
    - apply Sorted_merge_sort. apply _.
    - apply Sorted_merge_sort. apply _.
    - rewrite !merge_sort_Permutation. exact Hperm. }
  rewrite Hsort. reflexivity.
Qed.

(** X9. The medians, and with them the whole waterfall message, do not
    depend on the order of the daily tallies of a project: two reports with
    the same projects in the same order, whose lists of tallies are
    permutations of each other, give the same result. *)
Theorem waterfall_status_ignores_day_order
    (report report' : Dict.t (list TaskStatusCounts))
    (window_start window_end : Z) :
  Forall2 (λ kv kv', kv.1 = kv'.1 ∧ kv.2 ≡ₚ kv'.2) report report' →
  _get_waterfall_redness_status report window_start window_end
  = _get_waterfall_redness_status report' window_start window_end.
Proof.
  intros Hall. unfold _get_waterfall_redness_status.
  generalize ("`[STATUS]` Evergreen waterfall red and purple boxes median count per day"
    +:+ " between " +:+ Datetime.strftime_ymd window_start
    +:+ " and " +:+ Datetime.strftime_ymd window_end).
  induction Hall as [|[name daily] [name' daily'] rest rest' [Hname Hperm] _ IH];
    intros header; [reflexivity|].
  cbn [fst snd] in Hname, Hperm. subst name'. cbn [for_each].
  rewrite (median_Permutation (map failed daily) (map failed daily'))
    by (apply Permutation_map, Hperm).
  destruct (Py.median (map failed daily')) as [m|e]; [|reflexivity].
  cbn [mbind result_bind]. apply IH.
Qed.

Lemma waterfall_status_ignores_day_order_witness :
  let day red := {| project := "mongodb-mongo-master"; succeeded := 10;
                    failed := red; other := 0 |} in
  _get_waterfall_redness_status
    [("mongodb-mongo-master", [day 5; day 1; day 9])] 0 0
  = _get_waterfall_redness_status
      [("mongodb-mongo-master", [day 9; day 5; day 1])] 0 0.
Proof.
  intros day.
  apply (waterfall_status_ignores_day_order
           [("mongodb-mongo-master", [day 5; day 1; day 9])]
           [("mongodb-mongo-master", [day 9; day 5; day 1])] 0 0).
  constructor; [|constructor]. split; [reflexivity|]. cbn [snd].
  symmetry. apply (Permutation_cons_append [day 5; day 1] (day 9)).
Defined.

(** ** The tallies of a day *)

Lemma fold_add_fields (l : list TaskStatusCounts) (acc : TaskStatusCounts) :
  fold_left TaskStatusCounts_add l acc
  = {| project := project acc;
       succeeded := succeeded acc + sum_Z (map succeeded l);
       failed := failed acc + sum_Z (map failed l);
       other := other acc + sum_Z (map other l) |}.
Proof.
  revert acc. induction l as [|t l IH]; intros [p s f o].
  - unfold sum_Z. cbn. f_equal; lia.
  - cbn [fold_left]. rewrite IH. unfold sum_Z, TaskStatusCounts_add.
    cbn. f_equal; lia.
Qed.

Lemma sum_Z_Permutation (l l' : list Z) : l ≡ₚ l' → sum_Z l = sum_Z l'.
Proof.
  unfold sum_Z. induction 1 as [|x l l' _ IH|x y l|l l' l'' _ IH1 _ IH2];
    cbn; lia.
Qed.

(** X10. [_accumulate_project_statuses] returns one tally per listed name,
    in the order of the list, each carrying its name; the counts of a tally
    are the sums, field by field, of the builds whose project is that name,
    so builds of other projects weigh nothing and the order of the builds
    does not matter. *)
Theorem accumulated_tallies_are_sums (evg_project_names : list string)
    (build_statuses : list TaskStatusCounts) :
  _accumulate_project_statuses evg_project_names build_statuses
  = map (λ name,
           let own := filter (λ b, project b = name) build_statuses in
           {| project := name;
              succeeded := sum_Z (map succeeded own);
              failed := sum_Z (map failed own);
              other := sum_Z (map other own) |})
      evg_project_names
  ∧ map project
      (_accumulate_project_statuses evg_project_names build_statuses)
    = evg_project_names
  ∧ ∀ build_statuses',
      build_statuses ≡ₚ build_statuses' →
      _accumulate_project_statuses evg_project_names build_statuses
      = _accumulate_project_statuses evg_project_names build_statuses'.
Proof.
  assert (Hsum : ∀ bs,
    _accumulate_project_statuses evg_project_names bs
    = map (λ name,
             let own := filter (λ b, project b = name) bs in
             {| project := name;
                succeeded := sum_Z (map succeeded own);
                failed := sum_Z (map failed own);
                other := sum_Z (map other own) |})
        evg_project_names).
  { intros bs. unfold _accumulate_project_statuses. apply map_ext.
    intros name. rewrite project_status_of_sum. unfold sum_of_project.
    rewrite fold_add_fields. reflexivity. }
  split; [apply Hsum|]. split.
  - rewrite Hsum, map_map. cbn [project]. apply map_id.
  - intros bs' Hperm. rewrite !Hsum. apply map_ext. intros name. cbv zeta.
    assert (Hown : filter (λ b, project b = name) build_statuses
                   ≡ₚ filter (λ b, project b = name) bs')
      by (rewrite Hperm; reflexivity).
    f_equal; apply sum_Z_Permutation, Permutation_map, Hown.
Qed.

(** ** The age of the window *)

(** X11. Every instant of the window of a run lies more than one day and
    less than sixteen days before the time of the run, and two runs on the
    same UTC day have the same window. *)
Theorem window_age (now : Z) :
  (∀ t, window_start_at now ≤ t < window_end_at now →
        now - 16 * Datetime.usec_per_day < t < now - Datetime.usec_per_day)
  ∧ now - 2 * Datetime.usec_per_day < window_end_at now
    ≤ now - Datetime.usec_per_day
  ∧ ∀ now', now' / Datetime.usec_per_day = now / Datetime.usec_per_day →
      window_end_at now' = window_end_at now
      ∧ window_start_at now' = window_start_at now.
Proof.
  pose proof usec_per_day_pos as Hpos.
  assert (Hend : ∀ n, window_end_at n
                      = (n / Datetime.usec_per_day - 1) * Datetime.usec_per_day).
  { intros n. unfold window_end_at, Datetime.at_midnight,
      Datetime.timedelta_days. rewrite Z.mod_eq by lia. lia. }
  assert (Hstart : ∀ n, window_start_at n
                        = window_end_at n - 14 * Datetime.usec_per_day).
  { intros n. unfold window_start_at, Datetime.timedelta_days. reflexivity. }
  pose proof (Z.mod_pos_bound now Datetime.usec_per_day Hpos) as Hmod.
  pose proof (Z.mod_eq now Datetime.usec_per_day ltac:(lia)) as Hdiv.
  split; [|split].
  - intros t. rewrite Hstart, Hend. lia.
  - rewrite Hend. lia.
  - intros now' Hday. rewrite !Hstart, !Hend, Hday. split; reflexivity.
Qed.

(** ** More failures never give a greener light *)

Lemma verdict_mono_pointwise (ps ps' : list Q) :
  Forall2 Qle ps ps' →
  (verdict ps = RED → verdict ps' = RED)
  ∧ (verdict ps' = GREEN → verdict ps = GREEN).
Proof.
  intros Hle.
  assert (Hany : existsb (λ p, Float.gtb p 100) ps = true →
                 existsb (λ p, Float.gtb p 100) ps' = true).
  { induction Hle as [|p p' ps ps' Hp _ IH]; [discriminate|].
    cbn [existsb]. rewrite !orb_true_iff, !gtb_iff.
    intros [H|H]; [left; eapply Qlt_le_trans; eassumption | right; auto]. }
  assert (Hall : forallb (λ p, Float.ltb p 50) ps' = true →
                 forallb (λ p, Float.ltb p 50) ps = true).
  { clear Hany. induction Hle as [|p p' ps ps' Hp _ IH]; [reflexivity|].
    cbn [forallb]. rewrite !andb_true_iff, !ltb_iff.
    intros [H1 H2]. split; [eapply Qle_lt_trans; eassumption | auto]. }
  unfold verdict.
  destruct (existsb _ ps), (existsb _ ps'), (forallb _ ps), (forallb _ ps');
    split; intros H; try reflexivity; try discriminate H;
    try (discriminate Hany; reflexivity);
    try (discriminate Hall; reflexivity).
Qed.

Lemma percentages_mono (cs cs' ts : list Z) (ps ps' : list Q) :
  Forall (λ c, 0 ≤ c) cs → Forall (λ t, 0 < t) ts → Forall2 Z.le cs cs' →
  Forall2 (λ ct p, percentage ct.1 ct.2 = Ok p) (zip cs ts) ps →
  Forall2 (λ ct p, percentage ct.1 ct.2 = Ok p) (zip cs' ts) ps' →
  Forall2 Qle ps ps'.
Proof.
  intros Hcs Hts Hle. revert ts ps ps' Hcs Hts.
  induction Hle as [|c c' cs cs' Hc _ IH]; intros ts ps ps' Hcs Hts H1 H2.
  - apply Forall2_nil_inv_l in H1, H2. subst. constructor.
  - destruct ts as [|t ts].
    + apply Forall2_nil_inv_l in H1, H2. subst. constructor.
    + cbn [zip zip_with] in H1, H2.
      apply Forall2_cons_inv_l in H1 as (p & ps0 & Hp & H1 & ->).
      apply Forall2_cons_inv_l in H2 as (p' & ps0' & Hp' & H2 & ->).
      apply Forall_cons in Hcs as [Hc0 Hcs].
      apply Forall_cons in Hts as [Ht Hts].
      constructor.
      * exact (percentage_mono c c' t p p' Ht Hc0 Hc Hp Hp').
      * exact (IH ts ps0 ps0' Hcs Hts H1 H2).
Qed.

Lemma bf_counts_nonneg (r : BFsReport.t) : Forall (λ c, 0 ≤ c) (bf_counts r).
Proof.
  unfold bf_counts. destruct (max_per_team r) as [[max_hot max_cold] max_perf].
  repeat (constructor; [lia|]). constructor.
Qed.

Lemma bf_thresholds_positive : Forall (λ t, 0 < t) bf_thresholds.
Proof. repeat constructor. Qed.

(** X12. Between two completed runs, when each of the six counts of the
    second is at least the corresponding count of the first, each
    percentage of the second is at least that of the first, and the
    verdict of the second is never better: RED stays RED, and the second
    is GREEN only if the first is. *)
Theorem more_failures_never_greener
    (jira1 jira2 : JiraService) (evg1 evg2 : EvergreenService)
    (utcnow1 utcnow2 : Z) (as_str_table1 as_str_table2 : BFsReport.t → string)
    (field1 field2 repo1 repo2 branch1 branch2 : string)
    (notify1 notify2 : bool) (out1 out2 : Outcome) :
  let report1 :=
    _make_bfs_report jira1 field1 (get_evg_project_info evg1 repo1 branch1) in
  let report2 :=
    _make_bfs_report jira2 field2 (get_evg_project_info evg2 repo2 branch2) in
  evaluate_build_redness jira1 evg1 utcnow1 as_str_table1 field1 repo1
    branch1 notify1 = Ok out1 →
  evaluate_build_redness jira2 evg2 utcnow2 as_str_table2 field2 repo2
    branch2 notify2 = Ok out2 →
  Forall2 Z.le (bf_counts report1) (bf_counts report2) →
  Forall2 Qle (threshold_percentages out1) (threshold_percentages out2)
  ∧ (verdict (threshold_percentages out1) = RED →
     verdict (threshold_percentages out2) = RED)
  ∧ (verdict (threshold_percentages out2) = GREEN →
     verdict (threshold_percentages out1) = GREEN).
Proof.
  intros report1 report2 Hrun1 Hrun2 Hcounts.
  apply evaluate_build_redness_inv in Hrun1
    as (names1 & bf_msg1 & wreport1 & wf_msg1 & _ & Hbf1 & _).
  apply evaluate_build_redness_inv in Hrun2
    as (names2 & bf_msg2 & wreport2 & wf_msg2 & _ & Hbf2 & _).
  fold report1 in Hbf1. fold report2 in Hbf2.
  destruct (_get_bf_counts_status_percentages as_str_table1 report1)
    as (m1 & ps1 & Hps1 & Hall1).
  destruct (_get_bf_counts_status_percentages as_str_table2 report2)
    as (m2 & ps2 & Hps2 & Hall2).
  rewrite Hbf1 in Hps1. injection Hps1 as <- <-.
  rewrite Hbf2 in Hps2. injection Hps2 as <- <-.
  assert (Hle : Forall2 Qle (threshold_percentages out1)
                  (threshold_percentages out2)).
  { eapply percentages_mono; [| |exact Hcounts|exact Hall1|exact Hall2].
    - apply bf_counts_nonneg.
    - apply bf_thresholds_positive. }
  split; [exact Hle|]. apply verdict_mono_pointwise, Hle.
Qed.

Lemma more_failures_never_greener_witness :
  let run n :=
    evaluate_build_redness (sample_jira n)
      (sample_evg ["mongodb-mongo-master"] 0) sample_now sample_table
      "Evergreen Project" "10gen/mongo" "master" false in
  ∃ out1 out2,
    run 8%nat = Ok out1 ∧ run 9%nat = Ok out2
    ∧ verdict (threshold_percentages out1) = RED
    ∧ verdict (threshold_percentages out2) = RED.
Proof.
  intros run.
  destruct (run 8%nat) as [out1|e1] eqn:Hrun1;
    [|vm_compute in Hrun1; discriminate Hrun1].
  destruct (run 9%nat) as [out2|e2] eqn:Hrun2;
    [|vm_compute in Hrun2; discriminate Hrun2].
  unfold run in Hrun1, Hrun2.
  exists out1, out2.
  assert (Hcounts : Forall2 Z.le
    (bf_counts (_make_bfs_report (sample_jira 8) "Evergreen Project"
                  (get_evg_project_info (sample_evg ["mongodb-mongo-master"] 0)
                     "10gen/mongo" "master")))
    (bf_counts (_make_bfs_report (sample_jira 9) "Evergreen Project"
                  (get_evg_project_info (sample_evg ["mongodb-mongo-master"] 0)
                     "10gen/mongo" "master")))).
  { vm_compute. repeat (constructor; [discriminate|]). constructor. }
  destruct (more_failures_never_greener _ _ _ _ _ _ _ _ _ _ _ _ _ _ _ _
              out1 out2 Hrun1 Hrun2 Hcounts) as (_ & Hred & _).
  split; [reflexivity|]. split; [reflexivity|].
  assert (Hred1 : verdict (threshold_percentages out1) = RED).
  { vm_compute in Hrun1. injection Hrun1 as <-. reflexivity. }
  split; [exact Hred1 | exact (Hred Hred1)].
Defined.

(** ** The JQL list *)

Lemma string_app_cons (c : Ascii.ascii) (a x : string) :
  String c a +:+ x = String c (a +:+ x).
Proof. reflexivity. Qed.

Lemma iterable_to_jql_cons (e : string) (es : list string) :
  iterable_to_jql (e :: es)
  = Py.dquote +:+ e +:+ Py.dquote
      +:+ match es with
          | [] => EmptyString
          | _ :: _ => ", " +:+ iterable_to_jql es
          end.
Proof.
  unfold iterable_to_jql, Py.join. destruct es as [|e' es].
  - cbn [map String.concat]. rewrite (string_app_nil_r Py.dquote).
    reflexivity.
  - change (String.concat ", "
              (map (λ entry, Py.dquote +:+ entry +:+ Py.dquote)
                 (e :: e' :: es)))
      with ((Py.dquote +:+ e +:+ Py.dquote) +:+ ", "
            +:+ String.concat ", "
                  (map (λ entry, Py.dquote +:+ entry +:+ Py.dquote)
                     (e' :: es))).
    rewrite !string_app_assoc. reflexivity.
Qed.

Lemma split_at_quote (a b r1 r2 : string) :
  has_quote a = false → has_quote b = false →
  a +:+ Py.dquote +:+ r1 = b +:+ Py.dquote +:+ r2 → a = b ∧ r1 = r2.
Proof.
  revert b. induction a as [|c a IH]; intros [|c' b] Ha Hb Heq.
  - split; [reflexivity|].
    change (String (Ascii.ascii_of_nat 34) r1
            = String (Ascii.ascii_of_nat 34) r2) in Heq.
    injection Heq as Heq. exact Heq.
  - exfalso. cbn [has_quote] in Hb. apply orb_false_iff in Hb as [Hc _].
    change (String (Ascii.ascii_of_nat 34) r1
            = String c' (b +:+ Py.dquote +:+ r2)) in Heq.
    injection Heq as Hq _. rewrite <- Hq in Hc. discriminate Hc.
  - exfalso. cbn [has_quote] in Ha. apply orb_false_iff in Ha as [Hc _].
    change (String c (a +:+ Py.dquote +:+ r1)
            = String (Ascii.ascii_of_nat 34) r2) in Heq.
    injection Heq as Hq _. rewrite Hq in Hc. discriminate Hc.
  - cbn [has_quote] in Ha, Hb.
    apply orb_false_iff in Ha as [_ Ha]. apply orb_false_iff in Hb as [_ Hb].
    change (String c (a +:+ Py.dquote +:+ r1)
            = String c' (b +:+ Py.dquote +:+ r2)) in Heq.
    injection Heq as Hc Heq. subst c'.
    destruct (IH b Ha Hb Heq) as [Hab Hr]. subst. split; reflexivity.
Qed.

(** X13. On entries that contain no double quote, [iterable_to_jql] loses
    nothing: two lists of such entries with the same rendering are the same
    list. *)
Theorem iterable_to_jql_injective (l1 l2 : list string) :
  Forall (λ e, has_quote e = false) l1 →
  Forall (λ e, has_quote e = false) l2 →
  iterable_to_jql l1 = iterable_to_jql l2 → l1 = l2.
Proof.
  revert l2. induction l1 as [|e es IH]; intros [|e2 es2] H1 H2 Heq.
  - reflexivity.
  - rewrite iterable_to_jql_cons in Heq. discriminate Heq.
  - rewrite iterable_to_jql_cons in Heq. discriminate Heq.
  - rewrite !iterable_to_jql_cons in Heq.
    apply Forall_cons in H1 as [He H1]. apply Forall_cons in H2 as [He2 H2].
    apply (String.app_inj Py.dquote) in Heq.
    apply split_at_quote in Heq as [-> Htail]; [|assumption|assumption].
    f_equal. destruct es as [|e' es], es2 as [|e2' es2].
    + reflexivity.
    + discriminate Htail.
    + discriminate Htail.
    + apply (String.app_inj ", ") in Htail. apply IH; assumption.
Qed.

Lemma iterable_to_jql_injective_witness :
  iterable_to_jql ["mongodb-mongo-master"; "mongodb-mongo-v8.0"]
  = iterable_to_jql ["mongodb-mongo-master"; "mongodb-mongo-v8.0"]
  ∧ ["mongodb-mongo-master"; "mongodb-mongo-v8.0"]
    = ["mongodb-mongo-master"; "mongodb-mongo-v8.0"].
Proof.
  split; [reflexivity|].
  apply (iterable_to_jql_injective
           ["mongodb-mongo-master"; "mongodb-mongo-v8.0"]
           ["mongodb-mongo-master"; "mongodb-mongo-v8.0"]).
  - repeat constructor.
  - repeat constructor.
  - reflexivity.
Defined.

(** Quotes are not escaped: an entry that contains one can render as a
    longer list does. *)
Example iterable_to_jql_does_not_escape :
  iterable_to_jql ["a" +:+ Py.dquote +:+ ", " +:+ Py.dquote +:+ "b"]
  = iterable_to_jql ["a"; "b"].
Proof. reflexivity. Qed.

(** ** Failed counts within the range of the floats *)

Lemma median_in_range (data : list Z) (m : Py.number) :
  Forall (λ x, Z.abs x < 2 ^ 1000) data →
  Py.median data = Ok m → Float.in_range (Py.to_float m).
Proof.
  intros Hdata. unfold Py.median.
  set (sorted := merge_sort Z.le data).
  assert (Hsorted : ∀ i, Z.abs (nth i sorted 0) < 2 ^ 1000).
  { intros i. destruct (nth_in_or_default i sorted 0) as [Hin| ->];
      [|reflexivity].
    rewrite Forall_forall in Hdata. apply Hdata, list_elem_of_In.
    eapply Permutation_in; [apply (merge_sort_Permutation Z.le) | exact Hin]. }
  assert (Hpow : 2 ^ 1001 = 2 * 2 ^ 1000) by reflexivity.
  assert (Hbig : 2 < 2 ^ 1000) by reflexivity.
  destruct (length sorted =? 0)%nat; [discriminate|].
  destruct (length sorted mod 2 =? 1)%nat.
  - intros [= <-]. cbn [Py.to_float]. apply of_int_in_range. rewrite Hpow.
    match goal with
    | |- Z.abs (nth ?i _ _) < _ => pose proof (Hsorted i)
    end. lia.
  - cbv zeta.
    match goal with
    | |- context [Float.int_truediv (nth ?i _ _ + nth ?j _ _) 2] =>
        pose proof (Hsorted i) as Ha; pose proof (Hsorted j) as Hb;
        destruct (int_truediv_in_range (nth i sorted 0 + nth j sorted 0) 2)
          as (x & Hx & Hrange & _); [rewrite Hpow; lia | rewrite Hpow; lia |]
    end.
    rewrite Hx. intros [= <-]. exact Hrange.
Qed.

(** X8. On a report whose failed counts are below 2^1000 in magnitude,
    [_get_waterfall_redness_status] returns a message exactly when no
    project of the report has an empty list of tallies, and when it fails it
    raises [StatisticsError]; every median that it formats is a float,
    obtained without overflow and without underflow. *)
Theorem waterfall_status_ok_iff
    (waterfall_report : Dict.t (list TaskStatusCounts))
    (window_start window_end : Z) :
  Forall (λ kv, Forall (λ t, Z.abs (failed t) < 2 ^ 1000) kv.2)
    waterfall_report →
  (is_ok (_get_waterfall_redness_status waterfall_report window_start
            window_end) = true
   ↔ Forall (λ kv, kv.2 ≠ []) waterfall_report)
  ∧ (is_ok (_get_waterfall_redness_status waterfall_report window_start
              window_end) = false
     ↔ _get_waterfall_redness_status waterfall_report window_start window_end
       = Raise StatisticsError)
  ∧ Forall (λ kv, ∀ m, Py.median (map failed kv.2) = Ok m →
                       Float.in_range (Py.to_float m)) waterfall_report.
Proof.
  intros Hrange.
  assert (Hcases :
    (is_ok (_get_waterfall_redness_status waterfall_report window_start
              window_end) = true
     ↔ Forall (λ kv, kv.2 ≠ []) waterfall_report)
    ∧ (is_ok (_get_waterfall_redness_status waterfall_report window_start
                window_end) = false
       ↔ _get_waterfall_redness_status waterfall_report window_start
           window_end = Raise StatisticsError)).
  { clear Hrange. unfold _get_waterfall_redness_status.
    fold (waterfall_header window_start window_end).
    generalize (waterfall_header window_start window_end).
    induction waterfall_report as [|[name daily] rest IH]; intros header.
    - cbn. split; split; try discriminate; constructor.
    - cbn [for_each]. destruct daily as [|t daily].
      + cbn. split; split; try discriminate; try reflexivity.
        intros Hall. apply Forall_cons in Hall as [Hne _]. contradiction.
      + destruct (median_nonempty (map failed (t :: daily))) as [m Hm];
          [discriminate|].
        rewrite Hm. cbn [mbind result_bind].
        destruct (IH (header +:+ Py.nl +:+ name +:+ ": "
                        +:+ Float.format_f 0 (Py.to_float m))) as [IH1 IH2].
        split; [|exact IH2]. rewrite IH1, Forall_cons. cbn [snd].
        split; [intros H; split; [discriminate | exact H]
               | intros [_ H]; exact H]. }
  destruct Hcases as [Hok Hfail]. split; [exact Hok|]. split; [exact Hfail|].
  eapply Forall_impl; [exact Hrange|]. intros [name daily] Hdaily m.
  cbn [snd] in *. apply median_in_range.
  apply Forall_fmap. exact Hdaily.
Qed.

Lemma waterfall_status_ok_iff_witness :
  let day red := {| project := "mongodb-mongo-master"; succeeded := 10;
                    failed := red; other := 0 |} in
  let report := [("mongodb-mongo-master", [day 5; day 1; day 9; day 2])] in
  Forall (λ kv : string * list TaskStatusCounts,
            Forall (λ t, Z.abs (failed t) < 2 ^ 1000) kv.2) report
  ∧ is_ok (_get_waterfall_redness_status report 0 0) = true
  ∧ Float.in_range (7 # 2).
Proof.
  intros day report.
  assert (Hrange : Forall (λ kv : string * list TaskStatusCounts,
                             Forall (λ t, Z.abs (failed t) < 2 ^ 1000) kv.2)
                     report).
  { repeat (constructor; try reflexivity). }
  split; [exact Hrange|].
  destruct (waterfall_status_ok_iff report 0 0 Hrange) as (Hok & _ & Hmedians).
  split.
  - apply Hok. repeat constructor. discriminate.
  - apply Forall_cons in Hmedians as [Hmedian _].
    apply (Hmedian (Py.Flt (7 # 2))). reflexivity.
Defined.

Lemma abs_sum_Z_le (l : list Z) : Z.abs (sum_Z l) ≤ sum_Z (map Z.abs l).
Proof.
  unfold sum_Z. induction l as [|x l IH]; [reflexivity|].
  cbn [map foldr]. lia.
Qed.

Lemma sum_Z_abs_filter_le {A} (f : A → Z) (P : A → Prop)
    `{∀ x, Decision (P x)} (l : list A) :
  sum_Z (map (λ x, Z.abs (f x)) (filter P l))
  ≤ sum_Z (map (λ x, Z.abs (f x)) l).
Proof.
  unfold sum_Z. induction l as [|x l IH]; [reflexivity|].
  rewrite filter_cons. destruct (decide (P x)); cbn [map foldr]; lia.
Qed.

(** The failed count of a project over the builds of a query is bounded by
    the failed counts of all the builds of the query. *)
Lemma sum_of_project_failed_bound (build_statuses : list TaskStatusCounts)
    (name : string) :
  Z.abs (failed (sum_of_project build_statuses name))
  ≤ sum_Z (map (λ b, Z.abs (failed b)) build_statuses).
Proof.
  unfold sum_of_project. rewrite fold_add_fields. cbn [failed].
  unfold TaskStatusCounts_of_project. cbn [failed].
  etransitivity; [|apply (sum_Z_abs_filter_le failed (λ b, project b = name))].
  rewrite Z.add_0_l. etransitivity; [apply abs_sum_Z_le|].
  rewrite map_map. reflexivity.
Qed.

Lemma _make_waterfall_report_in_range (evg_service : EvergreenService)
    (evg_project_names : list string) (window_end : Z)
    (waterfall_report : Dict.t (list TaskStatusCounts)) :
  (∀ window_start window_end,
     failed_in_range (get_waterfall_status evg_service evg_project_names
                        window_start window_end)) →
  _make_waterfall_report evg_service evg_project_names window_end
  = Ok waterfall_report →
  Forall (λ kv, Forall (λ t, Z.abs (failed t) < 2 ^ 1000) kv.2)
    waterfall_report.
Proof.
  intros Hrange. rewrite _make_waterfall_report_spec.
  generalize (seq 0 EVERGREEN_LOOKBACK_DAYS). intros days [= <-].
  apply Forall_forall. intros [name tallies] Hkv.
  apply list_elem_of_In, in_map_iff in Hkv.
  destruct Hkv as ([k vs] & Heq & _). cbn [fst snd] in Heq.
  apply pair_equal_spec in Heq as [-> <-]. unfold snd.
  apply Forall_forall. intros t Ht.
  apply list_elem_of_In, in_flat_map in Ht. destruct Ht as (day & _ & Ht).
  apply in_map_iff in Ht. destruct Ht as (n & <- & _).
  rewrite project_status_of_sum.
  eapply Z.le_lt_trans; [apply sum_of_project_failed_bound|].
  apply Hrange.
Qed.

(** X3. A run fails in exactly one way of its own: with [KeyError] when the
    branch is not a key of [branch_to_projects_map].  With the key present
    and failed counts below 2^1000 in the answers of Evergreen, whatever
    the tickets, the projects and the waterfall data are, the run
    completes: no division by zero, no median of an empty list, no failed
    lookup in the waterfall report, and every median is a float obtained
    without overflow and without underflow. *)
Theorem run_fails_only_on_missing_branch
    (jira_service : JiraService) (evg_service : EvergreenService) (utcnow : Z)
    (as_str_table : BFsReport.t → string) (EVERGREEN_PROJECT : string)
    (repo branch : string) (notify : bool) :
  (∀ evg_project_names window_start window_end,
     branch_to_projects_map (get_evg_project_info evg_service repo branch)
       !! branch = Some evg_project_names →
     failed_in_range (get_waterfall_status evg_service evg_project_names
                        window_start window_end)) →
  match branch_to_projects_map (get_evg_project_info evg_service repo branch)
          !! branch with
  | Some evg_project_names =>
      ∃ out waterfall_report,
        evaluate_build_redness jira_service evg_service utcnow as_str_table
          EVERGREEN_PROJECT repo branch notify = Ok out
        ∧ length (threshold_percentages out) = 6%nat
        ∧ _make_waterfall_report evg_service evg_project_names
            (window_end_at utcnow) = Ok waterfall_report
        ∧ Forall (λ kv, ∃ m, Py.median (map failed kv.2) = Ok m
                             ∧ Float.in_range (Py.to_float m))
            waterfall_report
  | None =>
      evaluate_build_redness jira_service evg_service utcnow as_str_table
        EVERGREEN_PROJECT repo branch notify = Raise (KeyError branch)
  end.
Proof.
  intros Hrange.
  destruct (branch_to_projects_map _ !! branch) as [names|] eqn:Hnames.
  - destruct (evaluate_build_redness_ok jira_service evg_service utcnow
                as_str_table EVERGREEN_PROJECT repo branch notify names Hnames)
      as (out & bf_msg & report & _ & Hrun & Hbf & Hreport & _).
    exists out, report. split; [exact Hrun|]. split; [|split].
    + destruct (_get_bf_counts_status_percentages as_str_table
                  (_make_bfs_report jira_service EVERGREEN_PROJECT
                     (get_evg_project_info evg_service repo branch)))
        as (msg & ps & Hps & Hall).
      rewrite Hbf in Hps. injection Hps as <- <-.
      apply Forall2_length in Hall. rewrite <- Hall. unfold bf_counts.
      destruct (max_per_team _) as [[? ?] ?]. reflexivity.
    + exact Hreport.
    + assert (Hbound := _make_waterfall_report_in_range evg_service names
                          (window_end_at utcnow) report
                          (λ ws we, Hrange names ws we eq_refl) Hreport).
      destruct (_make_waterfall_report_ok evg_service names
                  (window_end_at utcnow)) as (report' & Hreport' & _ & Hne).
      rewrite Hreport in Hreport'. injection Hreport' as <-.
      apply Forall_forall. intros [name daily] Hkv.
      rewrite Forall_forall in Hbound, Hne.
      specialize (Hbound _ Hkv). specialize (Hne _ Hkv). cbn [snd] in *.
      destruct (median_nonempty (map failed daily)) as [m Hm].
      { destruct daily; [contradiction | discriminate]. }
      exists m. split; [exact Hm|].
      apply (median_in_range (map failed daily)); [|exact Hm].
      apply Forall_fmap. exact Hbound.
  - apply evaluate_build_redness_missing_branch, Hnames.
Qed.

Lemma run_fails_only_on_missing_branch_witness :
  ∃ out,
    evaluate_build_redness (sample_jira 4)
      (sample_evg ["mongodb-mongo-master"] 3) sample_now sample_table
      "Evergreen Project" "10gen/mongo" "master" false = Ok out
    ∧ length (threshold_percentages out) = 6%nat.
Proof.
  pose proof (run_fails_only_on_missing_branch (sample_jira 4)
                (sample_evg ["mongodb-mongo-master"] 3) sample_now
                sample_table "Evergreen Project" "10gen/mongo" "master" false)
    as Hrun.
  cbn [sample_evg get_evg_project_info] in Hrun.
  destruct Hrun as (out & report & Hrun & Hlen & _).
  - intros names window_start window_end Hnames.
    vm_compute in Hnames. injection Hnames as <-. reflexivity.
  - exists out. split; [exact Hrun | exact Hlen].
Defined.
